(** * Token authentication and session lifecycle of the intranet API

    A shallow embedding of the authentication core of the FastAPI
    application: [app/core/auth.py] (password verification, token minting
    and decoding), [app/core/security.py] (the access guard
    [get_current_user_id]) and [app/routers/auth.py] (the [login],
    [refresh] and [me] handlers).

    Python values are an inductive type, dictionaries are [gmap string],
    exceptions are values of [exn], and handlers run in a state-and-error
    monad over a [World] holding the system clock and the cookies written
    on the response.  The third-party libraries the code calls (python-jose,
    passlib, bson, pydantic) are interfaces: type classes whose fields are
    the library operations the program uses. *)

From Stdlib Require Import ZArith String Ascii List Lia.
From stdpp Require Import base option gmap strings list pretty countable.

Open Scope Z_scope.

(** ** Python values and exceptions *)

Module Py.

(** A [bson.ObjectId], kept as its 24-digit hexadecimal rendering. *)
Inductive ObjectId : Type := Oid (hex : string).

(** The Python values that flow through the authentication code: JSON
    claim values and MongoDB document fields.  [VOther] stands for any
    other object (float, list, dict, datetime); the model keeps what the
    code can observe of it, its truth value and its [str()]. *)
Inductive pyval : Type :=
| VNone
| VBool (b : bool)
| VInt (z : Z)
| VStr (s : string)
| VOid (o : ObjectId)
| VOther (truth : bool) (text : string).

#[export] Instance ObjectId_eq_dec : EqDecision ObjectId.
Proof. solve_decision. Defined.

#[export] Instance pyval_eq_dec : EqDecision pyval.
Proof. solve_decision. Defined.

(** Python dictionaries with string keys. *)
Abbreviation dict := (gmap string pyval).

(** [bool(v)]: Python truthiness. *)
Definition truthy (v : pyval) : bool :=
  match v with
  | VNone => false
  | VBool b => b
  | VInt z => negb (z =? 0)
  | VStr s => negb (String.eqb s "")
  | VOid _ => true
  | VOther t _ => t
  end.

(** [str(v)]. *)
Definition py_str (v : pyval) : string :=
  match v with
  | VNone => "None"
  | VBool true => "True"
  | VBool false => "False"
  | VInt z => pretty z
  | VStr s => s
  | VOid (Oid hex) => hex
  | VOther _ text => text
  end.

(** [v == s] for a string literal [s]. *)
Definition eq_str (v : pyval) (s : string) : bool :=
  match v with
  | VStr s' => String.eqb s' s
  | _ => false
  end.

(** [d.get(k)] and [d.get(k, default)]. *)
Definition dict_get (d : dict) (k : string) : pyval := default VNone (d !! k).
Definition dict_get_default (d : dict) (k : string) (dflt : pyval) : pyval :=
  default dflt (d !! k).

(** What python-jose reports in a [JWTError] (or one of its subclasses
    [ExpiredSignatureError], [JWTClaimsError]). *)
Inductive jose_cause : Type :=
| NotVerified
| IatNotInteger
| NbfNotInteger
| NotYetValid
| ExpNotInteger
| SignatureExpired
| AudienceRejected
| SubjectNotString
| JtiNotString
| AtHashUnchecked.

(** An exception message: a literal of the program, or [str(e)] of a
    python-jose error. *)
Inductive message : Type :=
| Text (s : string)
| StrOfJose (c : jose_cause).

Inductive exn : Type :=
| ValueError (m : message)
| TypeError
| KeyError (k : string)
| InvalidId
| JWSError
| JWTError (c : jose_cause)
| UnknownHashError
| ValidationError
| HTTPException (status_code : Z) (detail : string) (headers : list (string * string)).

(** The outcome of a Python call: a value, or a raised exception. *)
Inductive pyresult (A : Type) : Type :=
| Ret (a : A)
| Raise (e : exn).
Arguments Ret {A} a.
Arguments Raise {A} e.

(** [d[k]]: raises [KeyError] on a missing key. *)
Definition dict_item (d : dict) (k : string) : pyresult pyval :=
  match d !! k with
  | Some v => Ret v
  | None => Raise (KeyError k)
  end.

(** [s.replace(old, new)] for a non-empty [old]: every non-overlapping
    occurrence, left to right.  [skip] counts the characters of a match
    still to be dropped. *)
Fixpoint replace_from (old new : string) (skip : nat) (s : string) : string :=
  match s with
  | EmptyString => EmptyString
  | String c rest =>
      match skip with
      | S k => replace_from old new k rest
      | O =>
          if String.prefix old s
          then new +:+ replace_from old new (Nat.pred (String.length old)) rest
          else String c (replace_from old new O rest)
      end
  end.

Definition str_replace (old new s : string) : string := replace_from old new O s.

End Py.
Export Py.

(** ** The world: system clock and response cookies *)

(** A cookie as [Response.set_cookie] records it. *)
Record Cookie : Type := {
  key : string;
  value : string;
  httponly : bool;
  max_age : Z;
  samesite : string;
  secure : bool;
  path : string
}.

(** [clock n] is the instant (microseconds since the epoch, UTC) the
    [n]-th reading of the system clock returns; [tick] counts the readings
    made so far.  [response_cookies] are the cookies set on the FastAPI
    [Response] object of the request being served. *)
Record World : Type := {
  clock : nat → Z;
  tick : nat;
  response_cookies : list Cookie
}.

(** The instant the next clock reading returns. *)
Definition current_time (w : World) : Z := clock w (tick w).

(** Handlers: state passing over the world, with exceptions. *)
Definition M (A : Type) : Type := World → pyresult A * World.

Definition ret {A} (a : A) : M A := λ w, (Ret a, w).
Definition raise {A} (e : exn) : M A := λ w, (Raise e, w).
Definition bind {A B} (m : M A) (k : A → M B) : M B :=
  λ w, match m w with
       | (Ret a, w') => k a w'
       | (Raise e, w') => (Raise e, w')
       end.
Definition lift {A} (r : pyresult A) : M A := λ w, (r, w).

(** [try: m except Exception as e: h e]. *)
Definition try_except {A} (m : M A) (h : exn → M A) : M A :=
  λ w, match m w with
       | (Ret a, w') => (Ret a, w')
       | (Raise e, w') => h e w'
       end.

Notation "x <- m ;; k" := (bind m (λ x, k))
  (at level 100, m at next level, right associativity).
Notation "m1 ;;; m2" := (bind m1 (λ _, m2))
  (at level 100, right associativity).

(** The world after one more clock reading. *)
Definition advance (w : World) : World :=
  {| clock := clock w; tick := S (tick w);
     response_cookies := response_cookies w |}.

(** [datetime.now(timezone.utc)] / [datetime.utcnow()]: one clock reading. *)
Definition datetime_now : M Z := λ w, (Ret (current_time w), advance w).

(** The integer nearest to [n / d], ties to the even one ([0 <= n],
    [0 < d]). *)
Definition round_half_even (n d : Z) : Z :=
  let q := n `div` d in
  let r := n `mod` d in
  if 2 * r <? d then q
  else if d <? 2 * r then q + 1
  else if Z.even q then q else q + 1.

(** The binary exponent of the float [n / d]: the [k] with
    [2^52 <= n * 2^k / d < 2^53] ([0 < n], [0 < d]). *)
Definition float_exponent (n d : Z) : Z :=
  let k := 52 - Z.log2 n + Z.log2 d in
  if n * 2 ^ Z.max k 0 <? d * 2 ^ Z.max (- k) 0 * 2 ^ 52 then k + 1 else k.

(** [int(n / d)] for integers [0 <= n], [0 < d]: Python's true division
    gives the binary64 float nearest to the quotient, a 53-bit mantissa
    [m] scaled by [2^-k], and [int] drops its fraction.  (Quotients
    outside the normal range of binary64 do not arise from a
    [datetime].) *)
Definition int_of_quotient (n d : Z) : Z :=
  if n =? 0 then 0
  else
    let k := float_exponent n d in
    let m := round_half_even (n * 2 ^ Z.max k 0) (d * 2 ^ Z.max (- k) 0) in
    (m * 2 ^ Z.max (- k) 0) `div` 2 ^ Z.max k 0.

(** [int(dt.timestamp())] for an aware [dt]: [timestamp()] is the float
    [(dt - epoch).total_seconds()], that is the microseconds divided by
    [10**6]; [int] truncates it towards zero.  The float is not always
    the exact quotient: from 2^34 s after the epoch the microsecond
    [.999999] is rounded up to the next whole second.  ([datetime]'s range,
    the years 1 to 9999, is not modelled: outside it [now + timedelta]
    raises [OverflowError].) *)
Definition timestamp_int (dt : Z) : Z :=
  Z.sgn dt * int_of_quotient (Z.abs dt) 1000000.

(** [timegm(dt.utctimetuple())]: the whole seconds of the calendar fields. *)
Definition timegm (dt : Z) : Z := dt `div` 1000000.

Definition timedelta_minutes (m : Z) : Z := m * 60 * 1000000.
Definition timedelta_hours (h : Z) : Z := h * 3600 * 1000000.

(** [response.set_cookie(...)]. *)
Definition set_cookie (c : Cookie) : M unit :=
  λ w, (Ret tt,
        {| clock := clock w; tick := tick w;
           response_cookies := response_cookies w ++ [c] |}).

(** ** Third-party libraries *)

(** Python's [int()] on a value that is neither an [int] nor a [bool]
    (a string to parse, a float to truncate, or a [TypeError]). *)
Class Python : Type := {
  int_of_other : pyval → pyresult Z
}.

(** python-jose, JWS layer.  [jws_sign claims key alg] is [jws.sign]: the
    compact token, or [None] when the library raises [JWSError]
    (unsupported algorithm, unusable key, claims that do not serialise).
    [jws_verify_claims token key algorithms] is [jws.verify] followed by
    the JSON decoding of the payload: the claims, or [None] when the
    signature does not verify, the header's algorithm is not among
    [algorithms], or the payload is not a JSON object.  The one law is the
    correctness of the signature scheme. *)
Class Jose : Type := {
  jws_sign : dict → string → string → option string;
  jws_verify_claims : string → string → list string → option dict;
  jws_verify_sign : ∀ claims key alg token algorithms,
    jws_sign claims key alg = Some token →
    alg ∈ algorithms →
    jws_verify_claims token key algorithms = Some claims
}.

(** The hash schemes of [pwd_context]. *)
Inductive scheme : Type := bcrypt_sha256 | bcrypt.

(** passlib: [handler_verify sch secret hash] is the [verify] method of
    the handler of scheme [sch] on a hash that handler identified. *)
Class Passlib : Type := {
  handler_verify : scheme → string → string → pyresult bool
}.

(** bson: [ObjectId_of_str s] is [ObjectId(s)] on a string, [None] when it
    raises [InvalidId]. *)
Class Bson : Type := {
  ObjectId_of_str : string → option ObjectId
}.

(** pydantic: [UsuarioRead_validate d] is the [UsuarioRead] model built
    from the fields of [d], [None] when validation fails. *)
Class Pydantic : Type := {
  UsuarioRead_validate : dict → option dict
}.

(** The [usuarios] collection as the two queries the code makes of it:
    [find_one({"email": e})] and [find_one({"_id": oid})]. *)
Record Database : Type := {
  find_one_by_email : string → option dict;
  find_one_by_id : ObjectId → option dict
}.

(** [app/core/config.py]: the JWT part of [Settings]. *)
Record Settings : Type := {
  SECRET_KEY : string;
  ALGORITHM : string;
  ACCESS_TOKEN_EXPIRE_MINUTES : Z;
  MAJOR_TOKEN_EXPIRE_HOURS : Z
}.

(** The defaults of [Settings]. *)
Definition default_settings : Settings :=
  {| SECRET_KEY := "change-me"; ALGORITHM := "HS256";
     ACCESS_TOKEN_EXPIRE_MINUTES := 60; MAJOR_TOKEN_EXPIRE_HOURS := 7 |}.

(** ** python-jose: [jwt.encode] and [jwt.decode] *)

Section JoseJwt.
Context `{!Python, !Jose}.

(** [int(v)]. *)
Definition py_int (v : pyval) : pyresult Z :=
  match v with
  | VInt z => Ret z
  | VBool b => Ret (if b then 1 else 0)
  | _ => int_of_other v
  end.

(** [try: int(v) except ValueError: raise JWTError(...)]. *)
Definition claim_int (v : pyval) (c : jose_cause) : M Z :=
  match py_int v with
  | Ret z => ret z
  | Raise (ValueError _) => raise (JWTError c)
  | Raise e => raise e
  end.

(** [timegm(datetime.utcnow().utctimetuple())]. *)
Definition utcnow_seconds : M Z :=
  now <- datetime_now ;; ret (timegm now).

Definition _validate_iat (claims : dict) : M unit :=
  match claims !! "iat" with
  | None => ret tt
  | Some v => _ <- claim_int v IatNotInteger ;; ret tt
  end.

(** [if nbf > (now + leeway): raise JWTClaimsError]. *)
Definition _validate_nbf (claims : dict) : M unit :=
  match claims !! "nbf" with
  | None => ret tt
  | Some v =>
      nbf <- claim_int v NbfNotInteger ;;
      now <- utcnow_seconds ;;
      if now <? nbf then raise (JWTError NotYetValid) else ret tt
  end.

(** python-jose, [jose/jwt.py], with the default [leeway] of 0:
    [if exp < (now - leeway): raise ExpiredSignatureError].  The token is
    expired when [exp < now]; during the second [now = exp] it is still
    accepted. *)
Definition _validate_exp (claims : dict) : M unit :=
  match claims !! "exp" with
  | None => ret tt
  | Some v =>
      exp <- claim_int v ExpNotInteger ;;
      now <- utcnow_seconds ;;
      if exp <? now then raise (JWTError SignatureExpired) else ret tt
  end.

(** No [audience] is passed to [jwt.decode], so a token that carries an
    [aud] claim is rejected. *)
Definition _validate_aud (claims : dict) : M unit :=
  match claims !! "aud" with
  | None => ret tt
  | Some _ => raise (JWTError AudienceRejected)
  end.

Definition _validate_sub (claims : dict) : M unit :=
  match claims !! "sub" with
  | None | Some (VStr _) => ret tt
  | Some _ => raise (JWTError SubjectNotString)
  end.

Definition _validate_jti (claims : dict) : M unit :=
  match claims !! "jti" with
  | None | Some (VStr _) => ret tt
  | Some _ => raise (JWTError JtiNotString)
  end.

(** No [access_token] is passed to [jwt.decode]. *)
Definition _validate_at_hash (claims : dict) : M unit :=
  match claims !! "at_hash" with
  | None => ret tt
  | Some _ => raise (JWTError AtHashUnchecked)
  end.

(** [_validate_claims] with the default options ([iss] is checked only
    against an expected issuer, and none is passed). *)
Definition _validate_claims (claims : dict) : M unit :=
  _validate_iat claims ;;;
  _validate_nbf claims ;;;
  _validate_exp claims ;;;
  _validate_aud claims ;;;
  _validate_sub claims ;;;
  _validate_jti claims ;;;
  _validate_at_hash claims.

(** [jwt.encode(claims, key, algorithm=alg)]. *)
Definition jwt_encode (claims : dict) (key alg : string) : pyresult string :=
  match jws_sign claims key alg with
  | Some token => Ret token
  | None => Raise JWSError
  end.

(** [jwt.decode(token, key, algorithms=algorithms)]. *)
Definition jwt_decode (token key : string) (algorithms : list string) : M dict :=
  match jws_verify_claims token key algorithms with
  | None => raise (JWTError NotVerified)
  | Some claims => _validate_claims claims ;;; ret claims
  end.

End JoseJwt.

(** ** passlib: [pwd_context = CryptContext(schemes=["bcrypt_sha256", "bcrypt"])] *)

Section PwdContext.
Context `{!Passlib}.

(** The handler that identifies a hash, by its scheme tag, in the order of
    [schemes]. *)
Definition pwd_identify (hash : string) : option scheme :=
  if String.prefix "$bcrypt-sha256$" hash then Some bcrypt_sha256
  else if existsb (λ ident, String.prefix ident hash)
            ["$2$"; "$2a$"; "$2x$"; "$2y$"; "$2b$"]%string
       then Some bcrypt
       else None.

(** [pwd_context.verify(secret, hash)], passlib's [CryptContext.verify]:
    [False] on [None]; otherwise the record that identifies the hash is
    looked up, which raises [TypeError] on a hash that is not a string and
    [UnknownHashError] (hash could not be identified) on a string no
    scheme identifies; the identified handler then gives the verdict. *)
Definition pwd_context_verify (secret : string) (hash : pyval) : pyresult bool :=
  match hash with
  | VNone => Ret false
  | VStr h =>
      match pwd_identify h with
      | Some sch => handler_verify sch secret h
      | None => Raise UnknownHashError
      end
  | _ => Raise TypeError
  end.

End PwdContext.

(** ** The application *)

Record LoginIn : Type := { email : string; senha : string }.

Record TokenOut : Type := {
  access_token : string;
  token_type : string;
  usuario : dict
}.

Record Request : Type := { cookies : gmap string string }.

Section App.
Context `{!Python, !Jose, !Passlib, !Bson, !Pydantic}.
Variable settings : Settings.

(** *** [app/core/auth.py] *)

Definition verify_password (plain_password : string) (hashed_password : pyval)
  : pyresult bool :=
  if negb (truthy hashed_password) then Ret false
  else pwd_context_verify plain_password hashed_password.

Definition _exp (minutes hours : option Z) : M Z :=
  now <- datetime_now ;;
  match minutes, hours with
  | Some m, _ => ret (timestamp_int (now + timedelta_minutes m))
  | None, Some h => ret (timestamp_int (now + timedelta_hours h))
  | None, None => ret (timestamp_int (now + timedelta_minutes 15))
  end.

Definition create_token (sub : pyval) (token_type : string) : M string :=
  if negb (truthy sub) then raise (ValueError (Text "sub is required"))
  else
    exp <- (if String.eqb token_type "access"
            then _exp (Some (ACCESS_TOKEN_EXPIRE_MINUTES settings)) None
            else if String.eqb token_type "major"
            then _exp None (Some (MAJOR_TOKEN_EXPIRE_HOURS settings))
            else raise (ValueError (Text "invalid token_type"))) ;;
    iat_now <- datetime_now ;;
    let payload : dict :=
      <["sub" := sub]> (<["type" := VStr token_type]> (<["exp" := VInt exp]>
        (<["iat" := VInt (timestamp_int iat_now)]> ∅))) in
    lift (jwt_encode payload (SECRET_KEY settings) (ALGORITHM settings)).

Definition decode_token (token : string) : M dict :=
  try_except (jwt_decode token (SECRET_KEY settings) [ALGORITHM settings])
    (λ e, match e with
          | JWTError c => raise (ValueError (StrOfJose c))
          | _ => raise e
          end).

(** *** [app/core/security.py]

    [token] is what the [OAuth2PasswordBearer] dependency took from the
    Authorization header. *)

Definition get_current_user_id (token : string) : M string :=
  try_except
    (payload <- decode_token token ;;
     if negb (eq_str (dict_get payload "type") "access")
     then raise (ValueError (Text "Not an access token"))
     else
       let sub := dict_get payload "sub" in
       if negb (truthy sub) then raise (ValueError (Text "Missing subject"))
       else ret (py_str sub))
    (λ _, raise (HTTPException 401 "Token inválido ou expirado"
                   [("WWW-Authenticate", "Bearer")]%string)).

(** *** [app/routers/auth.py] *)

Definition COOKIE_NAME : string := "major_token".
Definition COOKIE_MAX_AGE : Z := MAJOR_TOKEN_EXPIRE_HOURS settings * 60 * 60.

Definition _set_major_cookie (token : string) : M unit :=
  set_cookie {| key := COOKIE_NAME; value := token; httponly := true;
                max_age := COOKIE_MAX_AGE; samesite := "none";
                secure := true; path := "/" |}.

Definition _build_safe_user (user : dict) : dict :=
  let safe : dict :=
    filter (λ kv, kv.1 ∉ ["senha"; "senha_hash"]%string) user in
  match safe !! "_id" with
  | Some (VOid o) => <["_id" := VStr (py_str (VOid o))]> safe
  | _ => safe
  end.

(** [not user] for the result of [find_one]: [None] or an empty document. *)
Definition no_user (user : option dict) : bool :=
  match user with
  | None => true
  | Some d => bool_decide (d = ∅)
  end.

(** [ObjectId(v)]. *)
Definition ObjectId_new (v : pyval) : pyresult ObjectId :=
  match v with
  | VStr s =>
      match ObjectId_of_str s with
      | Some o => Ret o
      | None => Raise InvalidId
      end
  | VOid o => Ret o
  | _ => Raise TypeError
  end.

(** [UsuarioRead] built from the fields of a document. *)
Definition UsuarioRead (d : dict) : pyresult dict :=
  match UsuarioRead_validate d with
  | Some u => Ret u
  | None => Raise ValidationError
  end.

Definition login (data : LoginIn) (db : Database) : M TokenOut :=
  let user := find_one_by_email db (email data) in
  match user with
  | Some u =>
      if no_user user
      then raise (HTTPException 401 "Credenciais inválidas" [])
      else
        ok <- lift (verify_password (senha data)
                      (dict_get_default u "senha_hash" (VStr ""))) ;;
        if negb ok
        then raise (HTTPException 401 "Credenciais inválidas" [])
        else
          id <- lift (dict_item u "_id") ;;
          let sub := VStr (py_str id) in
          access <- create_token sub "access" ;;
          major <- create_token sub "major" ;;
          _set_major_cookie major ;;;
          let safe_user := _build_safe_user u in
          usuario <- lift (UsuarioRead safe_user) ;;
          ret {| access_token := access; token_type := "bearer";
                 usuario := usuario |}
  | None => raise (HTTPException 401 "Credenciais inválidas" [])
  end.

Definition refresh (request : Request) (db : Database) : M TokenOut :=
  match cookies request !! COOKIE_NAME with
  | None | Some EmptyString =>
      raise (HTTPException 401 "Major token ausente" [])
  | Some major =>
      user_id <-
        try_except
          (payload <- decode_token major ;;
           if negb (eq_str (dict_get payload "type") "major")
           then raise (ValueError (Text "Token não é major"))
           else
             let user_id := dict_get payload "sub" in
             if negb (truthy user_id)
             then raise (ValueError (Text "User id ausente"))
             else ret user_id)
          (λ _, raise (HTTPException 401 "Major token inválido ou expirado" [])) ;;
      oid <-
        try_except (lift (ObjectId_new user_id))
          (λ _, raise (HTTPException 401 "ID inválido no token" [])) ;;
      let user := find_one_by_id db oid in
      match user with
      | Some u =>
          if no_user user
          then raise (HTTPException 401 "Usuário não encontrado" [])
          else
            new_access <- create_token user_id "access" ;;
            let safe_user := _build_safe_user u in
            usuario <- lift (UsuarioRead safe_user) ;;
            ret {| access_token := new_access; token_type := "bearer";
                   usuario := usuario |}
      | None => raise (HTTPException 401 "Usuário não encontrado" [])
      end
  end.

Definition me (authorization : option string) (db : Database) : M dict :=
  match authorization with
  | None | Some EmptyString => raise (HTTPException 401 "Token ausente" [])
  | Some authorization =>
      let token := str_replace "Bearer " "" authorization in
      user_id <-
        try_except
          (payload <- decode_token token ;;
           let user_id := dict_get payload "sub" in
           if negb (truthy user_id)
           then raise (HTTPException 401 "Token inválido" [])
           else ret user_id)
          (λ _, raise (HTTPException 401 "Token inválido ou expirado" [])) ;;
      oid <-
        try_except (lift (ObjectId_new user_id))
          (λ _, raise (HTTPException 401 "ID inválido no token" [])) ;;
      let user := find_one_by_id db oid in
      match user with
      | Some u =>
          if no_user user
          then raise (HTTPException 404 "Usuário não encontrado" [])
          else
            id <- lift (dict_item u "_id") ;;
            ret (<["id" := VStr (py_str id)]>
                 (<["display_name" := dict_get u "nome"]>
                 (<["departamento" := dict_get u "departamento"]>
                 (<["avatar_url" := dict_get u "avatar_url"]>
                 (<["descricao_html" :=
                      dict_get_default u "descricao_html" (VStr "")]> ∅)))))
      | None => raise (HTTPException 404 "Usuário não encontrado" [])
      end
  end.

(** *** What a minted token carries

    The time-to-live bound to a kind, the [exp] and [iat] values
    [create_token] computes from the two clock readings it makes in world
    [w], and the payload it hands to [jwt.encode]. *)

Definition ttl_seconds (token_type : string) : Z :=
  if String.eqb token_type "access"
  then ACCESS_TOKEN_EXPIRE_MINUTES settings * 60
  else MAJOR_TOKEN_EXPIRE_HOURS settings * 3600.

Definition minted_exp (token_type : string) (w : World) : Z :=
  timestamp_int (current_time w + ttl_seconds token_type * 1000000).

Definition minted_iat (w : World) : Z :=
  timestamp_int (current_time (advance w)).

Definition minted_payload (sub : pyval) (token_type : string) (w : World) : dict :=
  <["sub" := sub]> (<["type" := VStr token_type]>
    (<["exp" := VInt (minted_exp token_type w)]>
      (<["iat" := VInt (minted_iat w)]> ∅))).

(** [token] decodes, in world [w], to claims whose [type] is [kind]. *)
Definition decodes_as (token kind : string) (w : World) : Prop :=
  ∃ claims w', decode_token token w = (Ret claims, w') ∧
               claims !! "type" = Some (VStr kind).

(** The [type] claim of [token] is [kind], as far as decoding in world [w]
    can tell: if the token decodes, its claims have that [type].  (A token
    that does not decode, forged or expired, passes for every kind.) *)
Definition type_claim_is (token kind : string) (w : World) : Prop :=
  ∀ claims w', decode_token token w = (Ret claims, w') →
               claims !! "type" = Some (VStr kind).

End App.

(** ** The HTTP exchange *)

Inductive Body (A : Type) : Type :=
| JsonBody (a : A)
| DetailBody (detail : string)
| InternalServerError.
Arguments JsonBody {A} a.
Arguments DetailBody {A} detail.
Arguments InternalServerError {A}.

Record HttpResponse (A : Type) : Type := {
  status : Z;
  body : Body A;
  headers : list (string * string);
  set_cookies : list Cookie
}.
Arguments status {A} _.
Arguments body {A} _.
Arguments headers {A} _.
Arguments set_cookies {A} _.

(** What FastAPI sends for a handler's outcome: the returned model with
    the cookies set on the response object; for an [HTTPException] its
    status, detail and headers; for any other exception a 500. *)
Definition respond {A} (r : pyresult A * World) : HttpResponse A :=
  match r.1 with
  | Ret a =>
      {| status := 200; body := JsonBody a; headers := [];
         set_cookies := response_cookies r.2 |}
  | Raise (HTTPException s d h) =>
      {| status := s; body := DetailBody d; headers := h; set_cookies := [] |}
  | Raise _ =>
      {| status := 500; body := InternalServerError; headers := [];
         set_cookies := [] |}
  end.

(** A request is served with a fresh response object. *)
Definition fresh_response (w : World) : World :=
  {| clock := clock w; tick := tick w; response_cookies := [] |}.

Definition serve {A} (handler : M A) (w : World) : HttpResponse A * World :=
  let r := handler (fresh_response w) in (respond r, r.2).

(** The user agent's cookie store: each cookie of a response replaces the
    stored value of the same name. *)
Definition store_cookies (jar : gmap string string) (cs : list Cookie)
  : gmap string string :=
  foldl (λ j c, <[key c := value c]> j) jar cs.

Section Client.
Context `{!Python, !Jose, !Passlib, !Bson, !Pydantic}.
Variable settings : Settings.

(** One [POST /auth/refresh] sent with the stored cookies. *)
Definition client_refresh (db : Database) (st : gmap string string * World)
  : gmap string string * World :=
  let r := serve (refresh settings {| cookies := st.1 |} db) st.2 in
  (store_cookies st.1 (set_cookies r.1), r.2).

(** A sequence of refreshes, one per database state in [dbs]. *)
Definition client_refreshes (dbs : list Database)
  (st : gmap string string * World) : gmap string string * World :=
  foldl (λ s db, client_refresh db s) st dbs.

End Client.

(** ** The compatibility wrappers of [app/core/security.py] *)

Section Compat.
Context `{!Python, !Jose}.
Variable settings : Settings.

(** [data] is [None] or a dictionary; [expires_minutes] is accepted and
    ignored. *)
Definition create_access_token (data : option dict) (expires_minutes : option Z)
  : M string :=
  let sub : string :=
    match data with
    | Some d =>
        if negb (bool_decide (d = ∅)) && bool_decide (is_Some (d !! "sub"))
        then py_str (dict_get d "sub")
        else EmptyString
    | None => EmptyString
    end in
  if String.eqb sub ""
  then raise (ValueError (Text
         "create_access_token requer 'sub' em data (ex.: {'sub': user_id})"))
  else create_token settings (VStr sub) "access".

Definition decode_access_token (token : string) : M (option dict) :=
  try_except (payload <- decode_token settings token ;; ret (Some payload))
    (λ _, ret None).

End Compat.

(** ** [logout] of [app/routers/auth.py] *)




(** ** [get_current_user_optional] of [app/routers/comunicados.py] *)

Section Comunicados.
Context `{!Python, !Jose, !Bson}.
Variable settings : Settings.

Definition get_current_user_optional (authorization : option string)
    (db : Database) : M (option dict) :=
  match authorization with
  | None | Some EmptyString => ret None
  | Some authorization =>
      let token := str_replace "Bearer " "" authorization in
      found <-
        try_except
          (payload <- decode_token settings token ;;
           let user_id := dict_get payload "sub" in
           if negb (truthy user_id) then ret None else ret (Some user_id))
          (λ _, ret None) ;;
      match found with
      | None => ret None
      | Some user_id =>
          match ObjectId_new user_id with
          | Raise _ => ret None
          | Ret oid =>
              let user := find_one_by_id db oid in
              match user with
              | Some u =>
                  if no_user user then ret None
                  else
                    id <- lift (dict_item u "_id") ;;
                    ret (Some
                      (<["_id" := VStr (py_str id)]>
                       (<["nome" := dict_get u "nome"]>
                       (<["sobrenome" := dict_get u "sobrenome"]>
                       (<["avatar_url" := dict_get u "avatar_url"]>
                       (<["departamento" := dict_get u "departamento"]> ∅))))))
              | None => ret None
              end
          end
      end
  end.

End Comunicados.

(** ** [Settings.parse_cors_origins] of [app/core/config.py] *)

(** Python text operations the validator calls: [s.strip()], and
    [json.loads(s)], which is [None] when it raises, [Some None] when the
    value parsed is not a list, and the items when it is. *)
Class PyText : Type := {
  py_strip : string → string;
  json_loads_list : string → option (option (list pyval))
}.

(** The value handed to the validator: a string, a list or tuple, or
    anything else. *)
Inductive cors_value : Type :=
| CorsStr (s : string)
| CorsSeq (items : list pyval)
| CorsOther.

(** [s.split(sep)] for a one-character separator. *)
Fixpoint split_on (sep : ascii) (s : string) : list string :=
  match s with
  | EmptyString => [EmptyString]
  | String c rest =>
      if Ascii.eqb c sep then EmptyString :: split_on sep rest
      else match split_on sep rest with
           | x :: xs => String c x :: xs
           | [] => [String c EmptyString]
           end
  end.

(** [s.endswith(suffix)]. *)
Definition str_endswith (suffix s : string) : bool :=
  let n := String.length s in
  let m := String.length suffix in
  (m <=? n)%nat && String.eqb (String.substring (n - m) m s) suffix.

Definition BACKEND_CORS_ORIGINS_default : list string :=
  ["http://localhost:5173"; "http://127.0.0.1:5173"]%string.

Section Config.
Context `{!PyText}.

(** [[f(i).strip() for i in items if f(i).strip()]]. *)
Definition stripped_nonempty {A} (f : A → string) (items : list A) : list string :=
  filter (λ o, o ≠ EmptyString) ((λ i, py_strip (f i)) <$> items).

Definition parse_cors_origins (v : cors_value) : list string :=
  match v with
  | CorsStr v =>
      let s := py_strip v in
      let csv := stripped_nonempty id (split_on "," s) in
      if String.prefix "[" s && str_endswith "]" s
      then match json_loads_list s with
           | Some (Some parsed) => stripped_nonempty py_str parsed
           | Some None | None => csv
           end
      else csv
  | CorsSeq items => stripped_nonempty py_str items
  | CorsOther => BACKEND_CORS_ORIGINS_default
  end.

End Config.

(** ** A reference instantiation

    Executable stand-ins for the libraries, on which the handlers can be
    run: a JWS layer whose token is the bit string of an encoding of key,
    algorithm and claims (it signs claims of strings and integers only), a
    password handler whose digest is the scheme tag followed by the
    plaintext, an [ObjectId] parser that accepts 24 characters, and a
    pydantic model that accepts every document. *)

Module Reference.

Fixpoint pos_to_bits (p : positive) : string :=
  match p with
  | xH => EmptyString
  | xO q => String "0" (pos_to_bits q)
  | xI q => String "1" (pos_to_bits q)
  end.

Fixpoint bits_to_pos (s : string) : option positive :=
  match s with
  | EmptyString => Some xH
  | String c r =>
      if Ascii.eqb c "0" then xO <$> bits_to_pos r
      else if Ascii.eqb c "1" then xI <$> bits_to_pos r
      else None
  end.

Definition plain_of (v : pyval) : option (string + Z) :=
  match v with
  | VStr s => Some (inl s)
  | VInt z => Some (inr z)
  | _ => None
  end.

Definition of_plain (p : string + Z) : pyval :=
  match p with
  | inl s => VStr s
  | inr z => VInt z
  end.

Definition ref_sign (claims : dict) (key alg : string) : option string :=
  let p := omap plain_of claims in
  if decide (of_plain <$> p = claims)
  then Some (pos_to_bits (encode (key, alg, p)))
  else None.

Definition ref_verify (token key : string) (algorithms : list string)
  : option dict :=
  match bits_to_pos token with
  | Some p =>
      match decode (A := string * string * gmap string (string + Z)) p with
      | Some (k, a, c) =>
          if decide (k = key ∧ a ∈ algorithms)
          then Some (of_plain <$> c)
          else None
      | None => None
      end
  | None => None
  end.

Lemma bits_to_pos_to_bits (p : positive) : bits_to_pos (pos_to_bits p) = Some p.
Proof. induction p as [q IH | q IH |]; simpl; rewrite ?IH; done. Qed.

Lemma ref_verify_sign claims key alg token algorithms :
  ref_sign claims key alg = Some token →
  alg ∈ algorithms →
  ref_verify token key algorithms = Some claims.
Proof.
  unfold ref_sign, ref_verify. intros Hsign Halg.
  case_decide as Hplain; [| done]. injection Hsign as <-.
  rewrite bits_to_pos_to_bits, decode_encode.
  rewrite decide_True by done. by rewrite Hplain.
Qed.

#[export] Instance ref_python : Python :=
  {| int_of_other := λ _, Raise TypeError |}.

#[export] Instance ref_jose : Jose :=
  {| jws_sign := ref_sign; jws_verify_claims := ref_verify;
     jws_verify_sign := ref_verify_sign |}.

#[export] Instance ref_passlib : Passlib :=
  {| handler_verify := λ sch secret hash,
       Ret (bool_decide (hash =
              (match sch with
               | bcrypt_sha256 => "$bcrypt-sha256$"
               | bcrypt => "$2b$"
               end) +:+ secret)) |}.

#[export] Instance ref_bson : Bson :=
  {| ObjectId_of_str := λ s,
       if decide (String.length s = 24%nat) then Some (Oid s) else None |}.

#[export] Instance ref_pydantic : Pydantic :=
  {| UsuarioRead_validate := λ d, Some d |}.

(** A user record and a database that holds only it. *)
Definition alice_id : string := "507f1f77bcf86cd799439011".

Definition alice : dict :=
  <["_id" := VOid (Oid alice_id)]> (<["email" := VStr "alice@example.com"]>
    (<["nome" := VStr "Alice"]> (<["sobrenome" := VStr "Souza"]>
      (<["senha_hash" := VStr "$2b$correct horse"]> ∅)))).

Definition db_alice : Database :=
  {| find_one_by_email := λ e,
       if decide (e = "alice@example.com"%string) then Some alice else None;
     find_one_by_id := λ o,
       if decide (o = Oid alice_id) then Some alice else None |}.

Definition db_empty : Database :=
  {| find_one_by_email := λ _, None; find_one_by_id := λ _, None |}.

(** A world whose clock reads [start] microseconds first and one
    microsecond more at every later reading. *)
Definition world_at (start : Z) : World :=
  {| clock := λ n, match n with O => start | S _ => start + 1 end;
     tick := O; response_cookies := [] |}.

(** 2023-11-14 22:13:20 UTC, and the last microsecond of that second. *)
Definition t0 : Z := 1700000000000000.
Definition t0_late : Z := 1700000000999999.

(** The token [create_token] returns in world [w] ([""] if it raises). *)
Definition minted (sub : pyval) (kind : string) (w : World) : string :=
  match (create_token default_settings sub kind w).1 with
  | Ret token => token
  | Raise _ => EmptyString
  end.

Definition alice_access : string :=
  Eval vm_compute in minted (VStr alice_id) "access" (world_at t0).
Definition alice_major : string :=
  Eval vm_compute in minted (VStr alice_id) "major" (world_at t0).

(** A major token whose subject is not an id, and one signed with the same
    key that carries no subject at all. *)
Definition ghost_major : string :=
  Eval vm_compute in minted (VStr "ghost") "major" (world_at t0).
Definition nosub_major : string :=
  Eval vm_compute in
    default EmptyString
      (ref_sign (<["type" := VStr "major"]> (<["exp" := VInt 1700025200]> ∅))
         "change-me" "HS256").

(** The world [seconds] after [t0]. *)
Definition later (seconds : Z) : World := world_at (t0 + seconds * 1000000).

(** A request that carries [token] as its major cookie. *)
Definition cookie_of (token : string) : Request :=
  {| cookies := {[ "major_token" := token ]} |}.

End Reference.

(** ** A reference instantiation of the text operations

    [strip] removes ASCII white space at both ends; the JSON reader reads
    arrays of strings that hold no escape, and refuses every other text. *)

Module TextReference.

Fixpoint lstrip (s : string) : string :=
  match s with
  | EmptyString => EmptyString
  | String c rest => if Ascii.is_space c then lstrip rest else s
  end.

Definition ref_strip (s : string) : string :=
  String.rev (lstrip (String.rev (lstrip s))).

(** Where the reader is in the array: before an item (the first one or
    not), inside a string, after an item, after the closing bracket. *)
Inductive json_state : Type :=
| BeforeItem (first : bool)
| InString (acc : string)
| AfterItem
| Closed.

Definition quote : ascii := ascii_of_nat 34.
Definition backslash : ascii := ascii_of_nat 92.

Fixpoint json_items (st : json_state) (items : list string) (s : string)
  : option (list string) :=
  match s with
  | EmptyString =>
      match st with Closed => Some (reverse items) | _ => None end
  | String c rest =>
      match st with
      | BeforeItem first =>
          if Ascii.is_space c then json_items st items rest
          else if Ascii.eqb c quote then json_items (InString "") items rest
          else if first && Ascii.eqb c "]" then json_items Closed items rest
          else None
      | InString acc =>
          if Ascii.eqb c quote
          then json_items AfterItem (String.rev acc :: items) rest
          else if Ascii.eqb c "\" || (nat_of_ascii c <? 32)%nat then None
          else json_items (InString (String c acc)) items rest
      | AfterItem =>
          if Ascii.is_space c then json_items st items rest
          else if Ascii.eqb c "," then json_items (BeforeItem false) items rest
          else if Ascii.eqb c "]" then json_items Closed items rest
          else None
      | Closed => if Ascii.is_space c then json_items st items rest else None
      end
  end.

Definition ref_json_loads_list (s : string) : option (option (list pyval)) :=
  match lstrip s with
  | String "[" rest =>
      match json_items (BeforeItem true) [] rest with
      | Some items => Some (Some (VStr <$> items))
      | None => None
      end
  | _ => None
  end.

#[export] Instance ref_text : PyText :=
  {| py_strip := ref_strip; json_loads_list := ref_json_loads_list |}.

End TextReference.

(** ** Records with other password hashes

    A database whose every email finds a record like [alice]'s with
    [senha_hash] set to [hash]. *)

Module LegacyRecords.

Definition db_with_hash (hash : pyval) : Database :=
  {| find_one_by_email := λ _, Some (<["senha_hash" := hash]> Reference.alice);
     find_one_by_id := λ _, None |}.

End LegacyRecords.

(** ** Frames

    [same_response w w']: going from [w] to [w'] only advanced the clock.
    [frames m]: handler [m] only reads the clock. *)

Definition same_response (w w' : World) : Prop :=
  clock w' = clock w ∧ response_cookies w' = response_cookies w.

Definition frames {A} (m : M A) : Prop := ∀ w, same_response w (m w).2.

(** ** Exceptions a handler cannot raise

    [no_ValueError m]: handler [m] raises no [ValueError]. *)

Definition no_ValueError {A} (m : M A) : Prop :=
  ∀ w msg w', m w ≠ (Raise (ValueError msg), w').

(** * Properties *)

(** ** The definitions on small inputs *)

Example str_replace_bearer :
  str_replace "Bearer " "" "Bearer abc.def.ghi" = "abc.def.ghi"%string.
Proof. reflexivity. Qed.

Example str_replace_every_occurrence :
  str_replace "Bearer " "" "Bearer Bearer x Bearer y" = "x y"%string.
Proof. reflexivity. Qed.

Example str_replace_not_rescanned :
  str_replace "Bearer " "" "BBearer earer x" = "Bearer x"%string.
Proof. reflexivity. Qed.

Example timestamp_int_truncates : timestamp_int (-500000) = 0.
Proof. reflexivity. Qed.

Example timestamp_int_last_microsecond :
  timestamp_int 1700000000999999 = 1700000000.
Proof. reflexivity. Qed.

Example timestamp_int_rounds_up_from_2_34 :
  timestamp_int 17179869183999999 = 17179869183 ∧
  timestamp_int 17179869184999999 = 17179869185.
Proof. split; reflexivity. Qed.

Example float_exponent_of_third : float_exponent 1 3 = 54.
Proof. reflexivity. Qed.

Example timegm_floors : timegm (-500000) = -1.
Proof. reflexivity. Qed.

Example pwd_identify_bcrypt :
  pwd_identify "$2b$12$N9qo8uLOickgx2ZMRZoMye" = Some bcrypt.
Proof. reflexivity. Qed.

Example pwd_identify_bcrypt_sha256 :
  pwd_identify "$bcrypt-sha256$v=2,t=2b,r=12$n79VH.0Q2TMWmt3Oqt9uku"
    = Some bcrypt_sha256.
Proof. reflexivity. Qed.

Example pwd_identify_unknown :
  pwd_identify "5f4dcc3b5aa765d61d8327deb882cf99" = None.
Proof. reflexivity. Qed.

Example truthy_empty_string : truthy (VStr "") = false.
Proof. reflexivity. Qed.

Section Properties.
Context `{!Python, !Jose, !Passlib, !Bson, !Pydantic}.
Variable settings : Settings.

(** ** Minting *)

Lemma truthy_VStr (s : string) : truthy (VStr s) = true ↔ s ≠ ""%string.
Proof. simpl. rewrite negb_true_iff. apply String.eqb_neq. Qed.

Lemma create_token_falsy (sub : pyval) (k : string) (w : World) :
  truthy sub = false →
  create_token settings sub k w =
    (Raise (ValueError (Text "sub is required")), w).
Proof. intros Hs. unfold create_token. by rewrite Hs. Qed.

Lemma create_token_bad_kind (sub : pyval) (k : string) (w : World) :
  truthy sub = true → k ≠ "access"%string → k ≠ "major"%string →
  create_token settings sub k w =
    (Raise (ValueError (Text "invalid token_type")), w).
Proof.
  intros Hs Ha Hm. unfold create_token. rewrite Hs. simpl.
  apply String.eqb_neq in Ha, Hm. by rewrite Ha, Hm.
Qed.

Lemma create_token_valid (sub : pyval) (k : string) (w : World) :
  truthy sub = true → (k = "access" ∨ k = "major")%string →
  create_token settings sub k w =
    (jwt_encode (minted_payload settings sub k w)
       (SECRET_KEY settings) (ALGORITHM settings),
     advance (advance w)).
Proof.
  intros Hs [-> | ->]; unfold create_token; rewrite Hs; reflexivity.
Qed.

Lemma create_token_Ret (sub : pyval) (k tok : string) (w w1 : World) :
  create_token settings sub k w = (Ret tok, w1) →
  truthy sub = true ∧ (k = "access" ∨ k = "major")%string ∧
  w1 = advance (advance w) ∧
  jws_sign (minted_payload settings sub k w)
    (SECRET_KEY settings) (ALGORITHM settings) = Some tok.
Proof.
  intros Hmint. destruct (truthy sub) eqn:Hs.
  2: { by rewrite create_token_falsy in Hmint. }
  destruct (decide (k = "access"%string)) as [-> | Ha];
    [| destruct (decide (k = "major"%string)) as [-> | Hm]].
  3: { by rewrite create_token_bad_kind in Hmint. }
  all: rewrite create_token_valid in Hmint by auto;
    unfold jwt_encode in Hmint;
    destruct (jws_sign _ _ _) as [t |]; [| done];
    injection Hmint as -> <-; auto.
Qed.

Lemma minted_lookup_sub sub k w :
  minted_payload settings sub k w !! "sub" = Some sub.
Proof. unfold minted_payload. apply lookup_insert_eq. Qed.

Lemma minted_lookup_type sub k w :
  minted_payload settings sub k w !! "type" = Some (VStr k).
Proof.
  unfold minted_payload. rewrite lookup_insert_ne by done.
  apply lookup_insert_eq.
Qed.

Lemma minted_lookup_exp sub k w :
  minted_payload settings sub k w !! "exp" = Some (VInt (minted_exp settings k w)).
Proof.
  unfold minted_payload. rewrite !lookup_insert_ne by done.
  apply lookup_insert_eq.
Qed.

Lemma minted_lookup_iat sub k w :
  minted_payload settings sub k w !! "iat" = Some (VInt (minted_iat w)).
Proof.
  unfold minted_payload. rewrite !lookup_insert_ne by done.
  apply lookup_insert_eq.
Qed.

Lemma minted_lookup_other sub k w (key : string) :
  key ≠ "sub"%string → key ≠ "type"%string →
  key ≠ "exp"%string → key ≠ "iat"%string →
  minted_payload settings sub k w !! key = None.
Proof.
  intros. unfold minted_payload.
  rewrite !lookup_insert_ne by done. apply lookup_empty.
Qed.

(** C5. [create_token] called with the empty subject, or with a kind other
    than "access" and "major", raises [ValueError] (the codec's
    InvalidArgument); it reads no clock and signs nothing. *)
Theorem encode_precondition_failure (sub : pyval) (k : string) (w : World) :
  sub = VStr "" ∨ (k ≠ "access" ∧ k ≠ "major")%string →
  ∃ m : message, create_token settings sub k w = (Raise (ValueError m), w).
Proof.
  intros Hpre. destruct (truthy sub) eqn:Hs.
  - destruct Hpre as [-> | [Ha Hm]]; [done |].
    eexists. by apply create_token_bad_kind.
  - eexists. by apply create_token_falsy.
Qed.

(** ** Decoding what was minted *)

Lemma algorithm_allowed : ALGORITHM settings ∈ [ALGORITHM settings].
Proof. apply list_elem_of_singleton. reflexivity. Qed.

Lemma validate_claims_minted (s k : string) (w w2 : World) :
  _validate_claims (minted_payload settings (VStr s) k w) w2 =
    (if minted_exp settings k w <? timegm (current_time w2)
     then Raise (JWTError SignatureExpired) else Ret tt, advance w2).
Proof.
  unfold _validate_claims, _validate_iat, _validate_nbf, _validate_exp,
    _validate_aud, _validate_sub, _validate_jti, _validate_at_hash.
  rewrite minted_lookup_iat, minted_lookup_exp, minted_lookup_sub.
  rewrite !minted_lookup_other by done.
  unfold bind; cbn.
  destruct (_ <? _); reflexivity.
Qed.

Lemma decode_token_minted (s k tok : string) (w w2 : World) :
  jws_sign (minted_payload settings (VStr s) k w)
    (SECRET_KEY settings) (ALGORITHM settings) = Some tok →
  decode_token settings tok w2 =
    (if minted_exp settings k w <? timegm (current_time w2)
     then Raise (ValueError (StrOfJose SignatureExpired))
     else Ret (minted_payload settings (VStr s) k w), advance w2).
Proof.
  intros Hsign. unfold decode_token, try_except, jwt_decode.
  rewrite (jws_verify_sign _ _ _ _ _ Hsign algorithm_allowed).
  unfold bind. rewrite validate_claims_minted.
  destruct (_ <? _); reflexivity.
Qed.


(** C3, as the code has it.  A token minted by [create_token], of either
    kind, fails to decode with [ValueError] (the codec's InvalidToken) at
    every time strictly after the second of its [exp]; during the second
    equal to [exp] python-jose still accepts it, and [decode_token] returns
    the payload. *)
Theorem expiry_enforced_after_exp (s k tok : string) (w w1 : World) :
  create_token settings (VStr s) k w = (Ret tok, w1) →
  (∀ w2 : World, minted_exp settings k w < timegm (current_time w2) →
     decode_token settings tok w2 =
       (Raise (ValueError (StrOfJose SignatureExpired)), advance w2)) ∧
  (∀ w2 : World, timegm (current_time w2) = minted_exp settings k w →
     decode_token settings tok w2 =
       (Ret (minted_payload settings (VStr s) k w), advance w2)).
Proof.
  intros Hmint. apply create_token_Ret in Hmint as (_ & _ & _ & Hsign).
  split; intros w2 Hnow; rewrite (decode_token_minted _ _ _ _ _ Hsign).
  - by assert ((minted_exp settings k w <? timegm (current_time w2)) = true) as ->
      by (apply Z.ltb_lt; lia).
  - by assert ((minted_exp settings k w <? timegm (current_time w2)) = false) as ->
      by (apply Z.ltb_ge; lia).
Qed.

(** ** Expiry arithmetic *)

Lemma round_half_even_bounds (n d : Z) :
  0 < d →
  n `div` d ≤ round_half_even n d ≤ n `div` d + 1 ∧
  (round_half_even n d = n `div` d + 1 → d ≤ 2 * (n `mod` d)).
Proof.
  intros Hd. unfold round_half_even.
  destruct (2 * (n `mod` d) <? d) eqn:Hlow; [lia |].
  apply Z.ltb_ge in Hlow.
  destruct (d <? 2 * (n `mod` d)); [lia |].
  destruct (Z.even _); lia.
Qed.

(** With at least 19 fraction bits the mantissa of a number of
    microseconds, scaled back, has the whole seconds of the number: the
    next whole second is at least [10^-6] away, more than half of
    [2^-19]. *)
Lemma round_scaled_div (t k : Z) :
  0 ≤ t → 19 ≤ k →
  round_half_even (t * 2 ^ k) 1000000 `div` 2 ^ k = t `div` 1000000.
Proof.
  intros Ht Hk.
  assert (524288 ≤ 2 ^ k) as HP.
  { change 524288 with (2 ^ 19). apply Z.pow_le_mono_r; lia. }
  set (P := 2 ^ k) in *.
  pose proof (Z.div_mod t 1000000 ltac:(lia)) as Ht_eq.
  pose proof (Z.mod_pos_bound t 1000000 ltac:(lia)) as Hr.
  set (q := t `div` 1000000) in *. set (r := t `mod` 1000000) in *.
  pose proof (Z.div_mod (t * P) 1000000 ltac:(lia)) as Hn_eq.
  pose proof (Z.mod_pos_bound (t * P) 1000000 ltac:(lia)) as HR.
  destruct (round_half_even_bounds (t * P) 1000000 ltac:(lia)) as [Hm Hup].
  set (m := round_half_even (t * P) 1000000) in *.
  set (Q := (t * P) `div` 1000000) in *. set (R := (t * P) `mod` 1000000) in *.
  assert (t * P = 1000000 * (q * P) + r * P) as HtP by (rewrite Ht_eq; ring).
  assert (0 ≤ r * P ≤ 999999 * P) as HY by nia.
  set (X := q * P) in *. set (Y := r * P) in *.
  assert (X ≤ m < X + P) as Hbound.
  { split; [lia |].
    destruct (decide (m = Q + 1)) as [Hm1 | Hm1]; [specialize (Hup Hm1) |]; lia. }
  symmetry. apply (Z.div_unique_pos m P q (m - X)); [lia |].
  unfold X. ring.
Qed.

(** Before 2^34 s after the epoch [int(dt.timestamp())] is the whole
    second of [dt]. *)
Lemma timestamp_int_timegm (t : Z) :
  0 ≤ t < 17179869184000000 → timestamp_int t = timegm t.
Proof.
  intros [Ht Hbound]. unfold timestamp_int, timegm, int_of_quotient.
  destruct (Z.eqb_spec (Z.abs t) 0) as [Hzero | Hpos].
  { assert (t = 0) as -> by lia. reflexivity. }
  rewrite Z.abs_eq by lia. rewrite Z.sgn_pos by lia.
  assert (0 ≤ Z.log2 t < 54) as HL.
  { split; [apply Z.log2_nonneg |].
    apply Z.log2_lt_pow2; [lia |]. change (2 ^ 54) with 18014398509481984. lia. }
  assert (19 ≤ float_exponent t 1000000 ≤ 72) as Hk.
  { unfold float_exponent. change (Z.log2 1000000) with 19.
    set (k := 52 - Z.log2 t + 19).
    assert (18 ≤ k ≤ 71) as Hk0 by (unfold k; lia).
    rewrite (Z.max_l k 0), (Z.max_r (- k) 0) by lia.
    change (2 ^ 0) with 1.
    destruct (t * 2 ^ k <? 1000000 * 1 * 2 ^ 52) eqn:Hcmp; [lia |].
    apply Z.ltb_ge in Hcmp.
    destruct (decide (k = 18)) as [Hk18 | Hk18]; [| lia].
    rewrite Hk18 in Hcmp.
    change (2 ^ 18) with 262144 in Hcmp.
    change (2 ^ 52) with 4503599627370496 in Hcmp. lia. }
  set (k := float_exponent t 1000000) in *.
  rewrite (Z.max_l k 0), (Z.max_r (- k) 0) by lia.
  change (2 ^ 0) with 1. rewrite !Z.mul_1_r, Z.mul_1_l.
  apply round_scaled_div; lia.
Qed.

Lemma timestamp_int_add_seconds (t ttl : Z) :
  0 ≤ t → 0 ≤ ttl → t + ttl * 1000000 < 17179869184000000 →
  timestamp_int (t + ttl * 1000000) = timegm t + ttl.
Proof.
  intros Ht Httl Hbound. rewrite timestamp_int_timegm by lia.
  unfold timegm. apply Z.div_add. lia.
Qed.

Lemma timegm_mono (t1 t2 : Z) : t1 ≤ t2 → timegm t1 ≤ timegm t2.
Proof. intros. unfold timegm. apply Z.div_le_mono; lia. Qed.

(** C7, as the code has it.  A token minted by [create_token] carries
    [exp], computed from the clock reading [_exp] makes, and [iat],
    computed from a second, later reading.  With a non-negative TTL, a
    clock that is past the epoch and does not run backwards, and [exp] and
    [iat] before 2^34 s after the epoch (where [int(dt.timestamp())] is the
    whole second of [dt]), [exp] is the whole second of the first reading
    plus the TTL of the kind in seconds, [iat] is the whole second of the
    second reading, so [exp <= iat + TTL]; they are equal when both
    readings fall in the same second. *)
Theorem expiry_arithmetic (sub : pyval) (k tok : string) (w w1 : World) :
  create_token settings sub k w = (Ret tok, w1) →
  ∃ claims : dict,
    jws_verify_claims tok (SECRET_KEY settings) [ALGORITHM settings] = Some claims ∧
    claims !! "exp" = Some (VInt (minted_exp settings k w)) ∧
    claims !! "iat" = Some (VInt (minted_iat w)) ∧
    (0 ≤ ttl_seconds settings k →
     0 ≤ current_time w ≤ current_time (advance w) →
     current_time w + ttl_seconds settings k * 1000000 < 17179869184000000 →
     current_time (advance w) < 17179869184000000 →
       minted_exp settings k w = timegm (current_time w) + ttl_seconds settings k ∧
       minted_iat w = timegm (current_time (advance w)) ∧
       minted_exp settings k w ≤ minted_iat w + ttl_seconds settings k ∧
       (timegm (current_time w) = timegm (current_time (advance w)) →
          minted_exp settings k w = minted_iat w + ttl_seconds settings k)).
Proof.
  intros Hmint. apply create_token_Ret in Hmint as (_ & _ & _ & Hsign).
  exists (minted_payload settings sub k w).
  split; [by apply (jws_verify_sign _ _ _ _ _ Hsign), algorithm_allowed |].
  split; [apply minted_lookup_exp |]. split; [apply minted_lookup_iat |].
  intros Httl [Hnow Hmono] Hexp_bound Hiat_bound.
  assert (minted_exp settings k w = timegm (current_time w) + ttl_seconds settings k)
    as Hexp by (by apply timestamp_int_add_seconds).
  assert (minted_iat w = timegm (current_time (advance w)))
    as Hiat by (apply timestamp_int_timegm; lia).
  pose proof (timegm_mono _ _ Hmono).
  repeat split; [done | done | lia | lia].
Qed.

(** ** Password verification *)

(** C4, as the code has it.  [verify_password] returns [False] on the
    empty digest.  On a non-empty digest that no scheme of the context
    identifies it does not return: passlib's [UnknownHashError] propagates
    to the caller. *)
Theorem verify_password_digest_cases (plain : string) :
  verify_password plain (VStr "") = Ret false ∧
  (∀ h : string, h ≠ ""%string → pwd_identify h = None →
     verify_password plain (VStr h) = Raise UnknownHashError).
Proof.
  split; [done |]. intros h Hh Hid.
  unfold verify_password. rewrite (proj2 (truthy_VStr h) Hh). simpl.
  by rewrite Hid.
Qed.

(** ** Login *)

(** C6, as the code has it.  A login for which no user record matches
    the email raises 401 "Credenciais inválidas".  A login for which a
    record exists and [verify_password] returns [False] raises the same
    exception, leaves the same world, and so produces the same HTTP
    response.  When [verify_password] raises instead (passlib on a stored
    hash it cannot use), [login] has no handler for it: the exception
    goes through, and the response is a 500 where the unknown email gets
    a 401. *)
Theorem login_failure_uniform (data : LoginIn) (db1 db2 : Database)
    (u : dict) (w : World) :
  find_one_by_email db1 (email data) = None →
  find_one_by_email db2 (email data) = Some u →
  login settings data db1 w =
    (Raise (HTTPException 401 "Credenciais inválidas" []), w) ∧
  (verify_password (senha data) (dict_get_default u "senha_hash" (VStr "")) =
     Ret false →
   login settings data db2 w = login settings data db1 w ∧
   respond (login settings data db2 w) = respond (login settings data db1 w)) ∧
  (∀ e : exn,
     verify_password (senha data) (dict_get_default u "senha_hash" (VStr "")) =
       Raise e →
     (∀ s d h, e ≠ HTTPException s d h) →
     login settings data db2 w = (Raise e, w) ∧
     status (respond (login settings data db2 w)) = 500 ∧
     status (respond (login settings data db1 w)) = 401).
Proof.
  intros Hnone Hsome.
  assert (login settings data db1 w =
            (Raise (HTTPException 401 "Credenciais inválidas" []), w)) as Hlogin1.
  { unfold login. by rewrite Hnone. }
  split; [exact Hlogin1 |]. split.
  - intros Hverify.
    assert (login settings data db2 w =
              (Raise (HTTPException 401 "Credenciais inválidas" []), w)) as Hlogin2.
    { unfold login. rewrite Hsome. destruct (no_user _); [done |].
      unfold bind, lift. by rewrite Hverify. }
    by rewrite Hlogin1, Hlogin2.
  - intros e Hverify Hnot_http.
    assert (login settings data db2 w = (Raise e, w)) as Hlogin2.
    { unfold login. rewrite Hsome.
      destruct (no_user (Some u)) eqn:Hu.
      - simpl in Hu. apply bool_decide_eq_true in Hu. subst u.
        unfold dict_get_default in Hverify.
        by rewrite lookup_empty in Hverify.
      - unfold bind, lift. by rewrite Hverify. }
    split; [exact Hlogin2 |]. rewrite Hlogin1, Hlogin2. split; [| done].
    destruct e; try done. exfalso. by eapply Hnot_http.
Qed.

(** ** Kinds *)

Lemma eq_str_true (claims : dict) (key k : string) :
  eq_str (dict_get claims key) k = true ↔ claims !! key = Some (VStr k).
Proof.
  unfold dict_get. destruct (claims !! key) as [[] |]; simpl; try (split; done).
  rewrite String.eqb_eq. split; congruence.
Qed.

(** C2. A token whose type claim is "access" (valid or not), presented as
    the major cookie, makes [refresh] fail with HTTP 401; a token whose
    type claim is "major", presented as the bearer token, makes
    [get_current_user_id] fail with HTTP 401. *)
Theorem cross_kind_rejection :
  (∀ (tok : string) req db w,
     cookies req !! COOKIE_NAME = Some tok →
     type_claim_is settings tok "access" w →
     ∃ detail w',
       refresh settings req db w = (Raise (HTTPException 401 detail []), w')) ∧
  (∀ (tok : string) w,
     type_claim_is settings tok "major" w →
     ∃ w',
       get_current_user_id settings tok w =
         (Raise (HTTPException 401 "Token inválido ou expirado"
                   [("WWW-Authenticate", "Bearer")]%string), w')).
Proof.
  split.
  - intros tok req db w Hcookie Hkind.
    unfold refresh. rewrite Hcookie.
    destruct tok as [| c tok]; [by eexists _, _ |].
    unfold bind at 1, try_except at 1, bind at 1.
    destruct (decode_token settings (String c tok) w) as [[claims | e] w1]
      eqn:Hdec; [| by eexists _, _].
    unfold dict_get. rewrite (Hkind _ _ Hdec). simpl. by eexists _, _.
  - intros tok w Hkind.
    unfold get_current_user_id, try_except at 1, bind at 1.
    destruct (decode_token settings tok w) as [[claims | e] w1] eqn:Hdec;
      [| by eexists].
    unfold dict_get. rewrite (Hkind _ _ Hdec). simpl. by eexists.
Qed.

(** C10. [me] takes the token out of the Authorization header, decodes it
    and never looks at its [type]: whenever the token decodes to claims
    with a non-empty [sub] that names an existing user record, [me]
    returns that user's data.  When the [type] is "major" the access guard
    [get_current_user_id] rejects the very same token. *)
Theorem me_ignores_token_kind (authorization tok s : string) db w claims w1
    oid u id :
  authorization ≠ ""%string →
  str_replace "Bearer " "" authorization = tok →
  decode_token settings tok w = (Ret claims, w1) →
  claims !! "sub" = Some (VStr s) → s ≠ ""%string →
  ObjectId_of_str s = Some oid →
  find_one_by_id db oid = Some u →
  u !! "_id" = Some id →
  me settings (Some authorization) db w =
    (Ret (<["id" := VStr (py_str id)]>
          (<["display_name" := dict_get u "nome"]>
          (<["departamento" := dict_get u "departamento"]>
          (<["avatar_url" := dict_get u "avatar_url"]>
          (<["descricao_html" :=
               dict_get_default u "descricao_html" (VStr "")]> ∅))))),
     w1) ∧
  (claims !! "type" = Some (VStr "major") →
   ∃ w', get_current_user_id settings tok w =
           (Raise (HTTPException 401 "Token inválido ou expirado"
                     [("WWW-Authenticate", "Bearer")]%string), w')).
Proof.
  intros Hauth Hrep Hdec Hsub Hs Hoid Hfind Hid. split.
  - assert (dict_get claims "sub" = VStr s) as Hget
      by (unfold dict_get; by rewrite Hsub).
    assert (no_user (Some u) = false) as Hu.
    { simpl. apply bool_decide_eq_false. intros ->.
      by rewrite lookup_empty in Hid. }
    unfold me. destruct authorization as [| c a]; [done |].
    rewrite Hrep.
    unfold bind at 1, try_except at 1, bind at 1.
    rewrite Hdec, Hget, (proj2 (truthy_VStr s) Hs). simpl.
    unfold bind at 1, try_except, lift. simpl. rewrite Hoid, Hfind, Hu.
    unfold bind, dict_item. by rewrite Hid.
  - intros Hty. unfold get_current_user_id, try_except at 1, bind at 1.
    rewrite Hdec. unfold dict_get. rewrite Hty. simpl. by eexists.
Qed.

(** ** Refresh *)

(** C9, as the code has it.  A refresh whose cookie decodes to claims of
    type "major" fails with HTTP 401, never 404, when [sub] is missing or
    empty, when [sub] is not a well-formed id, and when no user record has
    that id; the detail of the 401 names which of the three it was. *)
Theorem refresh_subject_resolution (tok : string) req db w claims w1 :
  cookies req !! COOKIE_NAME = Some tok → tok ≠ ""%string →
  decode_token settings tok w = (Ret claims, w1) →
  claims !! "type" = Some (VStr "major") →
  (truthy (dict_get claims "sub") = false →
     refresh settings req db w =
       (Raise (HTTPException 401 "Major token inválido ou expirado" []), w1)) ∧
  (truthy (dict_get claims "sub") = true →
     ∀ e, ObjectId_new (dict_get claims "sub") = Raise e →
     refresh settings req db w =
       (Raise (HTTPException 401 "ID inválido no token" []), w1)) ∧
  (truthy (dict_get claims "sub") = true →
     ∀ oid, ObjectId_new (dict_get claims "sub") = Ret oid →
     no_user (find_one_by_id db oid) = true →
     refresh settings req db w =
       (Raise (HTTPException 401 "Usuário não encontrado" []), w1)).
Proof.
  intros Hcookie Hne Hdec Hty.
  assert (eq_str (dict_get claims "type") "major" = true) as Hmajor
    by (unfold dict_get; by rewrite Hty).
  destruct tok as [| c tok]; [done |].
  split; [| split]; intros Hsub; intros;
    unfold refresh; rewrite Hcookie;
    unfold bind at 1, try_except at 1, bind at 1;
    rewrite Hdec, Hmajor, Hsub; simpl.
  - done.
  - unfold bind, try_except, lift.
    by match goal with He : ObjectId_new _ = _ |- _ => rewrite He end.
  - unfold bind at 1, try_except, lift.
    match goal with He : ObjectId_new _ = _ |- _ => rewrite He end.
    destruct (find_one_by_id db oid); [| done].
    by match goal with Hno : no_user _ = _ |- _ => rewrite Hno end.
Qed.

Lemma same_response_refl w : same_response w w.
Proof. by split. Qed.

Lemma same_response_trans w1 w2 w3 :
  same_response w1 w2 → same_response w2 w3 → same_response w1 w3.
Proof. intros [? ?] [? ?]. split; congruence. Qed.

Lemma frames_ret {A} (a : A) : frames (ret a).
Proof. intros w. apply same_response_refl. Qed.

Lemma frames_raise {A} (e : exn) : frames (raise (A := A) e).
Proof. intros w. apply same_response_refl. Qed.

Lemma frames_lift {A} (r : pyresult A) : frames (lift r).
Proof. intros w. apply same_response_refl. Qed.

Lemma frames_datetime_now : frames datetime_now.
Proof. intros w. by split. Qed.

Lemma frames_bind {A B} (m : M A) (k : A → M B) :
  frames m → (∀ a, frames (k a)) → frames (bind m k).
Proof.
  intros Hm Hk w. unfold bind. specialize (Hm w).
  destruct (m w) as [[a | e] w']; simpl in *; [| done].
  eapply same_response_trans; [done | apply Hk].
Qed.

Lemma frames_try_except {A} (m : M A) (h : exn → M A) :
  frames m → (∀ e, frames (h e)) → frames (try_except m h).
Proof.
  intros Hm Hh w. unfold try_except. specialize (Hm w).
  destruct (m w) as [[a | e] w']; simpl in *; [done |].
  eapply same_response_trans; [done | apply Hh].
Qed.

Create HintDb frames.
#[local] Hint Resolve frames_ret frames_raise frames_lift frames_datetime_now
  : frames.
#[local] Hint Extern 2 (frames (bind _ _)) =>
  apply frames_bind; [| intros] : frames.
#[local] Hint Extern 2 (frames (try_except _ _)) =>
  apply frames_try_except; [| intros] : frames.
#[local] Hint Extern 4 (frames (match ?x with _ => _ end)) => destruct x : frames.
#[local] Hint Extern 4 (frames (if ?x then _ else _)) => destruct x : frames.

Lemma frames_claim_int v c : frames (claim_int v c).
Proof. unfold claim_int. destruct (py_int v) as [| []]; auto with frames. Qed.
#[local] Hint Resolve frames_claim_int : frames.

Lemma frames_jwt_decode token key algs : frames (jwt_decode token key algs).
Proof.
  unfold jwt_decode, _validate_claims, _validate_iat, _validate_nbf,
    _validate_exp, _validate_aud, _validate_sub, _validate_jti,
    _validate_at_hash, utcnow_seconds.
  auto 20 with frames.
Qed.

Lemma frames_decode_token token : frames (decode_token settings token).
Proof.
  unfold decode_token. apply frames_try_except; [apply frames_jwt_decode |].
  intros []; auto with frames.
Qed.

Lemma frames_create_token sub k : frames (create_token settings sub k).
Proof. unfold create_token, _exp. auto 20 with frames. Qed.
#[local] Hint Resolve frames_decode_token frames_create_token : frames.

Lemma frames_refresh req db : frames (refresh settings req db).
Proof. unfold refresh. auto 30 with frames. Qed.

Lemma refresh_mints_access req db w out w' :
  refresh settings req db w = (Ret out, w') →
  ∃ (tok : string) (claims : dict) (w1 : World),
    cookies req !! COOKIE_NAME = Some tok ∧
    decode_token settings tok w = (Ret claims, w1) ∧
    claims !! "type" = Some (VStr "major") ∧
    create_token settings (dict_get claims "sub") "access" w1 =
      (Ret (access_token out), w') ∧
    w' = advance (advance w1).
Proof.
  unfold refresh.
  destruct (cookies req !! COOKIE_NAME) as [[| c major] |] eqn:Hcookie;
    [done | | done].
  unfold bind at 1, try_except at 1, bind at 1.
  destruct (decode_token settings (String c major) w) as [[claims | e] w1]
    eqn:Hdec; [| done].
  destruct (eq_str (dict_get claims "type") "major") eqn:Hty; [| done].
  destruct (truthy (dict_get claims "sub")) eqn:Hsub; [| done].
  simpl. unfold bind at 1.
  destruct (try_except _ _ w1) as [[oid | e] w2] eqn:Hoid; [| done].
  assert (w2 = w1) as ->.
  { unfold try_except, lift in Hoid.
    destruct (ObjectId_new _); by injection Hoid as _ <-. }
  destruct (find_one_by_id db oid) as [u |]; [| done].
  destruct (no_user _); [done |].
  unfold bind at 1.
  destruct (create_token settings (dict_get claims "sub") "access" w1)
    as [[tok | e] w3] eqn:Hmint; [| done].
  unfold bind, lift. destruct (UsuarioRead _); [| done].
  unfold ret. intros [= <- <-].
  exists (String c major), claims, w1.
  apply eq_str_true in Hty.
  pose proof (create_token_Ret _ _ _ _ _ Hmint) as (_ & _ & Hw3 & _).
  auto.
Qed.

Lemma serve_refresh_sets_no_cookie req db w :
  set_cookies (serve (refresh settings req db) w).1 = [].
Proof.
  unfold serve, respond. simpl.
  pose proof (frames_refresh req db (fresh_response w)) as [_ Hc].
  destruct (refresh settings req db (fresh_response w)) as [[out | []] w'];
    simpl in *; done.
Qed.

Lemma client_refresh_jar db jar w :
  (client_refresh settings db (jar, w)).1 = jar.
Proof.
  unfold client_refresh. cbv zeta. cbn [fst snd].
  by rewrite serve_refresh_sets_no_cookie.
Qed.

Lemma client_refreshes_jar dbs jar w :
  (client_refreshes settings dbs (jar, w)).1 = jar.
Proof.
  revert jar w. induction dbs as [| db dbs IH]; intros jar w; [done |].
  unfold client_refreshes in *. simpl.
  destruct (client_refresh settings db (jar, w)) as [jar' w'] eqn:Hstep.
  rewrite IH. by rewrite <- (client_refresh_jar db jar w), Hstep.
Qed.

(** C8. A successful refresh sets no cookie on the response; it decodes
    the major cookie, mints one token with [create_token] and kind
    "access" for the cookie's subject, and reads the clock no further (so
    no second token is minted).  No refresh response carries a Set-Cookie;
    hence after any number of refreshes the user agent still stores the
    same major token (the same string, so the same [exp]). *)
Theorem refresh_frame_condition :
  (∀ req db w out w', refresh settings req db w = (Ret out, w') →
     response_cookies w' = response_cookies w ∧
     ∃ (tok : string) (claims : dict) (w1 : World),
       cookies req !! COOKIE_NAME = Some tok ∧
       decode_token settings tok w = (Ret claims, w1) ∧
       claims !! "type" = Some (VStr "major") ∧
       create_token settings (dict_get claims "sub") "access" w1 =
         (Ret (access_token out), w') ∧
       w' = advance (advance w1)) ∧
  (∀ req db w, set_cookies (serve (refresh settings req db) w).1 = []) ∧
  (∀ dbs jar w,
     (client_refreshes settings dbs (jar, w)).1 !! COOKIE_NAME =
       jar !! COOKIE_NAME).
Proof.
  split; [| split].
  - intros req db w out w' Hok. split.
    + pose proof (frames_refresh req db w) as [_ Hc]. by rewrite Hok in Hc.
    + by eapply refresh_mints_access.
  - apply serve_refresh_sets_no_cookie.
  - intros. by rewrite client_refreshes_jar.
Qed.

(** ** Guards, login and the shape of decoded claims *)

Lemma decodes_as_functional (tok k1 k2 : string) (w : World) :
  decodes_as settings tok k1 w → decodes_as settings tok k2 w → k1 = k2.
Proof.
  intros (c1 & w1 & Hd1 & Ht1) (c2 & w2 & Hd2 & Ht2).
  rewrite Hd1 in Hd2. injection Hd2 as <- <-. congruence.
Qed.

(** [refresh] answers 401 unless its cookie decodes to claims of type
    "major". *)
Theorem refresh_requires_major (tok : string) req db w :
  cookies req !! COOKIE_NAME = Some tok →
  ¬ decodes_as settings tok "major" w →
  ∃ detail w',
    refresh settings req db w = (Raise (HTTPException 401 detail []), w').
Proof.
  intros Hcookie Hnot. unfold refresh. rewrite Hcookie.
  destruct tok as [| c tok]; [by eexists _, _ |].
  unfold bind at 1, try_except at 1, bind at 1.
  destruct (decode_token settings (String c tok) w) as [[claims | e] w1] eqn:Hdec;
    [| by eexists _, _].
  destruct (eq_str (dict_get claims "type") "major") eqn:Hty; [| by eexists _, _].
  destruct Hnot. exists claims, w1. split; [done |]. by apply eq_str_true.
Qed.

(** [get_current_user_id] answers 401 unless the bearer token decodes to
    claims of type "access". *)
Theorem guard_requires_access (tok : string) w :
  ¬ decodes_as settings tok "access" w →
  ∃ w',
    get_current_user_id settings tok w =
      (Raise (HTTPException 401 "Token inválido ou expirado"
                [("WWW-Authenticate", "Bearer")]%string), w').
Proof.
  intros Hnot. unfold get_current_user_id, try_except at 1, bind at 1.
  destruct (decode_token settings tok w) as [[claims | e] w1] eqn:Hdec;
    [| by eexists].
  destruct (eq_str (dict_get claims "type") "access") eqn:Hty; [| by eexists].
  destruct Hnot. exists claims, w1. split; [done |]. by apply eq_str_true.
Qed.

(** [get_current_user_id] returns the [sub] of a token that decodes to
    claims of type "access" with a non-empty subject. *)
Theorem guard_accepts_access (tok s : string) w claims w1 :
  decode_token settings tok w = (Ret claims, w1) →
  claims !! "type" = Some (VStr "access") →
  claims !! "sub" = Some (VStr s) → s ≠ ""%string →
  get_current_user_id settings tok w = (Ret s, w1).
Proof.
  intros Hdec Hty Hsub Hs.
  unfold get_current_user_id, try_except at 1, bind at 1. rewrite Hdec.
  rewrite (proj2 (eq_str_true claims "type" "access") Hty).
  unfold dict_get. rewrite Hsub. simpl default.
  apply String.eqb_neq in Hs. simpl. by rewrite Hs.
Qed.

(** [_build_safe_user] removes the password fields and keeps every other
    field but [_id], which it renders as a string. *)
Theorem build_safe_user_strips (user : dict) :
  _build_safe_user user !! "senha" = None ∧
  _build_safe_user user !! "senha_hash" = None.
Proof.
  unfold _build_safe_user.
  set (safe := filter _ user).
  assert (safe !! "senha" = None ∧ safe !! "senha_hash" = None) as [H1' H2'].
  { split; apply map_lookup_filter_None; right; intros v _ Hk; apply Hk; simpl;
      repeat constructor. }
  destruct (safe !! "_id") as [[] |]; rewrite ?lookup_insert_ne by done; done.
Qed.

Lemma build_safe_user_keeps (user : dict) (k : string) :
  k ≠ "senha"%string → k ≠ "senha_hash"%string → k ≠ "_id"%string →
  _build_safe_user user !! k = user !! k.
Proof.
  intros Hs Hh Hi. unfold _build_safe_user.
  set (safe := filter _ user).
  assert (safe !! k = user !! k) as Hk.
  { destruct (user !! k) as [v |] eqn:Hu.
    - apply map_lookup_filter_Some. split; [done |]. simpl.
      by repeat (apply not_elem_of_cons; split; [done |]); apply not_elem_of_nil.
    - apply map_lookup_filter_None. by left. }
  destruct (safe !! "_id") as [[] |]; rewrite ?lookup_insert_ne by done; done.
Qed.


Lemma bind_Ret {A B} (m : M A) (k : A → M B) w b w' :
  bind m k w = (Ret b, w') →
  ∃ a w1, m w = (Ret a, w1) ∧ k a w1 = (Ret b, w').
Proof.
  unfold bind. destruct (m w) as [[a | e] w1]; [| done]. by exists a, w1.
Qed.

Lemma validate_sub_Ret (claims : dict) w w' :
  _validate_sub claims w = (Ret tt, w') →
  claims !! "sub" = None ∨ ∃ s, claims !! "sub" = Some (VStr s).
Proof.
  unfold _validate_sub. destruct (claims !! "sub") as [[] |]; try done; eauto.
Qed.

(** What [decode_token] returns was verified by the JWS layer, and its
    [sub], when present, is a string. *)
Lemma decode_token_Ret (tok : string) w claims w1 :
  decode_token settings tok w = (Ret claims, w1) →
  jws_verify_claims tok (SECRET_KEY settings) [ALGORITHM settings] = Some claims ∧
  (claims !! "sub" = None ∨ ∃ s, claims !! "sub" = Some (VStr s)).
Proof.
  unfold decode_token, try_except, jwt_decode.
  destruct (jws_verify_claims _ _ _) as [c |]; [| done].
  destruct (bind _ _ w) as [[c' | e] w2] eqn:Hbind; [| by destruct e].
  intros [= -> ->].
  apply bind_Ret in Hbind as ([] & w3 & Hval & [= -> ->]).
  split; [done |]. unfold _validate_claims in Hval.
  do 4 (apply bind_Ret in Hval as ([] & ? & _ & Hval)).
  apply bind_Ret in Hval as ([] & ? & Hsub & _).
  by eapply validate_sub_Ret.
Qed.

End Properties.

(** * Further properties of the authentication code *)

Section Coverage.
Context `{!Python, !Jose, !Passlib, !Bson, !Pydantic}.
Variable settings : Settings.

(** ** What [decode_token] raises *)

Lemma no_ValueError_ret {A} (a : A) : no_ValueError (ret a).
Proof. by intros w msg w'. Qed.

Lemma no_ValueError_bind {A B} (m : M A) (k : A → M B) :
  no_ValueError m → (∀ a, no_ValueError (k a)) → no_ValueError (bind m k).
Proof.
  intros Hm Hk w msg w'. unfold bind.
  destruct (m w) as [[a | e] w1] eqn:Hrun; [apply Hk |].
  intros [= -> ->]. by eapply Hm.
Qed.

Lemma no_ValueError_claim_int v c : no_ValueError (claim_int v c).
Proof.
  intros w msg w'. unfold claim_int.
  destruct (py_int v) as [z | []]; done.
Qed.

Lemma no_ValueError_validate_claims claims :
  no_ValueError (_validate_claims claims).
Proof.
  unfold _validate_claims, _validate_iat, _validate_nbf, _validate_exp,
    _validate_aud, _validate_sub, _validate_jti, _validate_at_hash,
    utcnow_seconds.
  repeat first
    [ apply no_ValueError_bind; [| intros ?]
    | apply no_ValueError_ret
    | apply no_ValueError_claim_int
    | by intros ? ? ?
    | match goal with
      | |- no_ValueError (match ?x with _ => _ end) => destruct x
      | |- no_ValueError (if ?x then _ else _) => destruct x
      end ].
Qed.

Lemma no_ValueError_jwt_decode token key algs :
  no_ValueError (jwt_decode token key algs).
Proof.
  unfold jwt_decode. destruct (jws_verify_claims _ _ _); [| by intros ? ? ?].
  apply no_ValueError_bind; [apply no_ValueError_validate_claims |].
  intros _. apply no_ValueError_ret.
Qed.

(** [decode_token] lets no [JWTError] out, and every [ValueError] it
    raises is a [JWTError] of [jwt.decode], carried as its message. *)
Theorem decode_token_wraps_jwt_errors (tok : string) (w : World) e w' :
  decode_token settings tok w = (Raise e, w') →
  (∀ c, e ≠ JWTError c) ∧
  (∀ msg, e = ValueError msg →
     ∃ c, msg = StrOfJose c ∧
          jwt_decode tok (SECRET_KEY settings) [ALGORITHM settings] w =
            (Raise (JWTError c), w')).
Proof.
  unfold decode_token, try_except.
  destruct (jwt_decode _ _ _ w) as [[claims | e0] w1] eqn:Hrun; [done |].
  destruct e0; intros [= <- <-]; (split; [done |]); intros msg [= <-];
    try (by eexists);
    by destruct (no_ValueError_jwt_decode _ _ _ _ _ _ Hrun).
Qed.

(** ** The access guard *)

(** What [get_current_user_id] returns is the [sub] claim of a token that
    decodes to claims of type "access", and is never empty. *)
Theorem guard_returns_subject (tok s : string) (w w' : World) :
  get_current_user_id settings tok w = (Ret s, w') →
  s ≠ ""%string ∧
  ∃ claims : dict,
    decode_token settings tok w = (Ret claims, w') ∧
    claims !! "type" = Some (VStr "access") ∧
    claims !! "sub" = Some (VStr s).
Proof.
  unfold get_current_user_id, try_except at 1, bind at 1.
  destruct (decode_token settings tok w) as [[claims | e] w1] eqn:Hdec; [| done].
  destruct (eq_str (dict_get claims "type") "access") eqn:Hty; [| done].
  destruct (truthy (dict_get claims "sub")) eqn:Hsub; [| done].
  simpl. intros [= <- <-].
  apply eq_str_true in Hty.
  destruct (decode_token_Ret settings _ _ _ _ Hdec) as [_ [Hnone | [s Hs]]].
  - unfold dict_get in Hsub. by rewrite Hnone in Hsub.
  - unfold dict_get in *. rewrite Hs in *. simpl.
    split; [by apply truthy_VStr |]. by exists claims.
Qed.

(** ** The compatibility wrappers *)

(** [create_access_token] raises [ValueError], reading no clock, when it
    is given no dictionary, a dictionary without [sub], or a [sub] whose
    [str()] is empty. *)
Theorem create_access_token_requires_sub (data : option dict)
    (expires_minutes : option Z) (w : World) :
  data = None ∨
  (∃ d, data = Some d ∧
        (d !! "sub" = None ∨ ∃ v, d !! "sub" = Some v ∧ py_str v = ""%string)) →
  create_access_token settings data expires_minutes w =
    (Raise (ValueError (Text
       "create_access_token requer 'sub' em data (ex.: {'sub': user_id})")), w).
Proof.
  intros [-> | (d & -> & Hsub)]; [done |].
  unfold create_access_token.
  destruct Hsub as [Hnone | (v & Hv & Hstr)].
  - rewrite Hnone. rewrite (bool_decide_eq_false_2 (is_Some None)).
    + by rewrite andb_false_r.
    + by intros [? ?].
  - unfold dict_get. rewrite Hv. simpl. rewrite Hstr.
    by destruct (_ && _).
Qed.


(** [decode_access_token] never raises: it returns the claims when
    [decode_token] returns them and [None] when [decode_token] raises, and
    it does not look at the [type] of the claims. *)
Theorem decode_access_token_never_raises (tok : string) (w : World) :
  ∃ (r : option dict) (w' : World),
    decode_access_token settings tok w = (Ret r, w') ∧
    (∀ claims, r = Some claims ↔
               decode_token settings tok w = (Ret claims, w')) ∧
    (r = None ↔ ∃ e, decode_token settings tok w = (Raise e, w')).
Proof.
  unfold decode_access_token, try_except, bind.
  destruct (decode_token settings tok w) as [[claims | e] w1];
    eexists _, _; (split; [reflexivity |]); split.
  - intros c. split; [by intros [= ->] | by intros [= ->]].
  - split; [done | by intros [? ?]].
  - intros c. split; done.
  - split; [by exists e | done].
Qed.

(** ** Logout *)


(** ** [me] and the optional user *)

Lemma str_replace_Bearer_prefix (a : string) :
  str_replace "Bearer " "" ("Bearer " +:+ a) = str_replace "Bearer " "" a.
Proof. by destruct a. Qed.

(** The "Bearer " prefix of the Authorization header is optional for
    [me]: the bare token is served like the prefixed one. *)
Theorem me_bearer_prefix_optional (a : string) (db : Database) (w : World) :
  a ≠ ""%string →
  me settings (Some ("Bearer " +:+ a)) db w = me settings (Some a) db w.
Proof.
  intros Ha. destruct a as [| c a]; [done |].
  unfold me. change ("Bearer " +:+ String c a)
    with (String "B" ("earer " +:+ String c a)).
  cbv beta iota.
  change (String "B" ("earer " +:+ String c a)) with ("Bearer " +:+ String c a).
  by rewrite str_replace_Bearer_prefix.
Qed.

(** The failures of [me]: 401 for a missing header, for a token that does
    not decode or has no subject, and for a subject that is not an id; 404
    for an unknown user; [KeyError] for a record without [_id].  The detail
    "Token inválido" raised inside the [try] never reaches the caller. *)
Theorem me_error_contract (authorization : option string) (db : Database)
    (w w' : World) (e : exn) :
  me settings authorization db w = (Raise e, w') →
  e = HTTPException 401 "Token ausente" [] ∨
  e = HTTPException 401 "Token inválido ou expirado" [] ∨
  e = HTTPException 401 "ID inválido no token" [] ∨
  e = HTTPException 404 "Usuário não encontrado" [] ∨
  e = KeyError "_id".
Proof.
  unfold me. destruct authorization as [[| c a] |];
    [intros [= <- <-]; auto | | intros [= <- <-]; auto].
  unfold bind at 1, try_except at 1, bind at 1.
  destruct (decode_token _ _ _) as [[claims | e0] w1];
    [| intros [= <- <-]; auto].
  destruct (truthy _); [| intros [= <- <-]; auto].
  simpl. unfold bind at 1, try_except, lift.
  destruct (ObjectId_new _) as [oid | e1]; [| intros [= <- <-]; auto].
  destruct (find_one_by_id db oid) as [u |]; [| intros [= <- <-]; auto 6].
  destruct (no_user _); [intros [= <- <-]; auto 6 |].
  unfold bind, dict_item.
  destruct (u !! "_id"); [done | intros [= <- <-]; auto 6].
Qed.

(** [me] returns the five profile fields and nothing else of the record. *)
Theorem me_exposes_profile_only (authorization : option string)
    (db : Database) (w w' : World) (d : dict) (k : string) :
  me settings authorization db w = (Ret d, w') →
  k ∉ ["id"; "display_name"; "departamento"; "avatar_url";
       "descricao_html"]%string →
  d !! k = None.
Proof.
  unfold me. destruct authorization as [[| c a] |]; [done | | done].
  unfold bind at 1, try_except at 1, bind at 1.
  destruct (decode_token _ _ _) as [[claims | e0] w1]; [| done].
  destruct (truthy _); [| done].
  simpl. unfold bind at 1, try_except, lift.
  destruct (ObjectId_new _) as [oid | e1]; [| done].
  destruct (find_one_by_id db oid) as [u |]; [| done].
  destruct (no_user _); [done |].
  unfold bind, dict_item.
  destruct (u !! "_id"); [| done].
  intros [= <- <-] Hk.
  repeat (apply not_elem_of_cons in Hk as [? Hk]).
  rewrite !lookup_insert_ne by done. apply lookup_empty.
Qed.

(** [get_current_user_optional] follows [me] step for step: it returns a
    user exactly when [me] returns one, [None] where [me] raises an
    [HTTPException], and raises what [me] raises otherwise; the clock
    readings are the same. *)
Theorem optional_user_follows_me (authorization : option string)
    (db : Database) (w : World) :
  match me settings authorization db w with
  | (Ret _, w') =>
      ∃ u, get_current_user_optional settings authorization db w =
             (Ret (Some u), w')
  | (Raise (HTTPException _ _ _), w') =>
      get_current_user_optional settings authorization db w = (Ret None, w')
  | (Raise e, w') =>
      get_current_user_optional settings authorization db w = (Raise e, w')
  end.
Proof.
  unfold me, get_current_user_optional.
  destruct authorization as [[| c a] |]; [reflexivity | | reflexivity].
  unfold bind, try_except, lift, ret, raise, dict_item.
  destruct (decode_token _ _ _) as [[claims | e0] w1]; [| reflexivity].
  destruct (truthy _); cbn; [| reflexivity].
  destruct (ObjectId_new _) as [oid | e1]; [| reflexivity].
  destruct (find_one_by_id db oid) as [u |]; [| reflexivity].
  destruct (no_user _); [reflexivity |].
  destruct (u !! "_id"); [by eexists | reflexivity].
Qed.

(** ** [refresh] *)


(** The access token a successful [refresh] returns is accepted by the
    access guard up to and including the second of its [exp], and the
    guard returns the subject of the major token in the cookie. *)
Theorem refresh_token_passes_guard (req : Request) (db : Database)
    (w w' : World) (out : TokenOut) :
  refresh settings req db w = (Ret out, w') →
  ∃ (major s : string) (claims : dict) (w1 : World),
    cookies req !! COOKIE_NAME = Some major ∧
    decode_token settings major w = (Ret claims, w1) ∧
    claims !! "sub" = Some (VStr s) ∧
    ∀ w2 : World,
      timegm (current_time w2) ≤ minted_exp settings "access" w1 →
      get_current_user_id settings (access_token out) w2 =
        (Ret s, advance w2).
Proof.
  intros Hrun.
  apply refresh_mints_access in Hrun
    as (major & claims & w1 & Hcookie & Hdec & _ & Hmint & _).
  apply create_token_Ret in Hmint as (Htruthy & _ & _ & Hsign).
  destruct (decode_token_Ret settings _ _ _ _ Hdec) as [_ [Hnone | [s Hs]]].
  { unfold dict_get in Htruthy. by rewrite Hnone in Htruthy. }
  unfold dict_get in Htruthy, Hsign. rewrite Hs in Htruthy, Hsign.
  simpl default in *.
  exists major, s, claims, w1. do 3 (split; [done |]).
  intros w2 Hnow.
  unfold get_current_user_id, try_except at 1, bind at 1.
  rewrite (decode_token_minted _ _ _ _ _ _ Hsign).
  assert ((minted_exp settings "access" w1 <? timegm (current_time w2)) = false)
    as -> by (apply Z.ltb_ge; lia).
  unfold dict_get. rewrite minted_lookup_type, minted_lookup_sub.
  simpl in Htruthy |- *. by rewrite Htruthy.
Qed.

(** ** [login] *)

(** A record whose [senha_hash] is missing, [None] or empty admits no
    password: [login] answers 401 whatever password is sent, reading no
    clock and setting no cookie. *)
Theorem login_without_password_hash (data : LoginIn) (db : Database)
    (u : dict) (w : World) :
  find_one_by_email db (email data) = Some u →
  u !! "senha_hash" = None ∨
  (∃ h, u !! "senha_hash" = Some h ∧ truthy h = false) →
  login settings data db w =
    (Raise (HTTPException 401 "Credenciais inválidas" []), w).
Proof.
  intros Hfind Hhash. unfold login. rewrite Hfind.
  destruct (no_user _); [done |].
  assert (truthy (dict_get_default u "senha_hash" (VStr "")) = false) as Hfalsy.
  { unfold dict_get_default.
    destruct Hhash as [-> | (h & -> & Hh)]; [done | exact Hh]. }
  unfold bind, lift, verify_password. by rewrite Hfalsy.
Qed.

(** A record whose [senha_hash] is a non-empty string that no scheme of
    the context identifies makes [login] fail with passlib's
    [UnknownHashError], whatever password is sent; the client gets a 500,
    not the 401 of a wrong password. *)
Theorem login_unidentified_hash (data : LoginIn) (db : Database)
    (u : dict) (h : string) (w : World) :
  find_one_by_email db (email data) = Some u →
  u !! "senha_hash" = Some (VStr h) → h ≠ ""%string →
  pwd_identify h = None →
  login settings data db w = (Raise UnknownHashError, w) ∧
  status (respond (login settings data db w)) = 500.
Proof.
  intros Hfind Hhash Hh Hid.
  assert (login settings data db w = (Raise UnknownHashError, w)) as Hlogin.
  { unfold login. rewrite Hfind.
    assert (no_user (Some u) = false) as ->.
    { simpl. apply bool_decide_eq_false. intros ->.
      by rewrite lookup_empty in Hhash. }
    assert (dict_get_default u "senha_hash" (VStr "") = VStr h) as ->
      by (unfold dict_get_default; by rewrite Hhash).
    unfold bind, lift, verify_password.
    rewrite (proj2 (truthy_VStr h) Hh). simpl. by rewrite Hid. }
  by rewrite Hlogin.
Qed.

Lemma login_Ret (data : LoginIn) (db : Database) (w w' : World)
    (out : TokenOut) :
  login settings data db w = (Ret out, w') →
  ∃ (u : dict) (id : pyval) (major : string),
    find_one_by_email db (email data) = Some u ∧
    u !! "_id" = Some id ∧
    py_str id ≠ ""%string ∧
    jws_sign (minted_payload settings (VStr (py_str id)) "access" w)
      (SECRET_KEY settings) (ALGORITHM settings) = Some (access_token out) ∧
    jws_sign (minted_payload settings (VStr (py_str id)) "major"
                (advance (advance w)))
      (SECRET_KEY settings) (ALGORITHM settings) = Some major ∧
    UsuarioRead_validate (_build_safe_user u) = Some (usuario out) ∧
    response_cookies w' =
      response_cookies w ++
      [{| key := COOKIE_NAME; value := major; httponly := true;
          max_age := COOKIE_MAX_AGE settings; samesite := "none";
          secure := true; path := "/" |}].
Proof.
  unfold login.
  destruct (find_one_by_email db (email data)) as [u |] eqn:Hfind; [| done].
  destruct (no_user _); [done |].
  unfold bind at 1, lift at 1.
  destruct (verify_password _ _) as [[] | e]; [| done | done].
  cbn [negb]. cbv beta iota.
  unfold bind at 1, lift at 1, dict_item.
  destruct (u !! "_id") as [id |] eqn:Hid; [| done].
  unfold bind at 1.
  destruct (create_token settings (VStr (py_str id)) "access" w)
    as [[access | e] w1] eqn:Haccess; [| done].
  apply create_token_Ret in Haccess as (Hs & _ & -> & Haccess).
  unfold bind at 1.
  destruct (create_token settings (VStr (py_str id)) "major" _)
    as [[major | e] w2] eqn:Hmajor; [| done].
  apply create_token_Ret in Hmajor as (_ & _ & -> & Hmajor).
  unfold bind, _set_major_cookie, set_cookie, lift, UsuarioRead, ret.
  destruct (UsuarioRead_validate _) as [usr |] eqn:Hread; [| done].
  intros [= <- <-]. exists u, id, major.
  apply truthy_VStr in Hs. done.
Qed.

(** The access token a successful [login] returns authenticates as the
    user who logged in: up to and including the second of its [exp] the
    access guard returns [str(user["_id"])]. *)
Theorem login_token_passes_guard (data : LoginIn) (db : Database)
    (w w' : World) (out : TokenOut) :
  login settings data db w = (Ret out, w') →
  ∃ (u : dict) (id : pyval),
    find_one_by_email db (email data) = Some u ∧
    u !! "_id" = Some id ∧
    ∀ w2 : World,
      timegm (current_time w2) ≤ minted_exp settings "access" w →
      get_current_user_id settings (access_token out) w2 =
        (Ret (py_str id), advance w2).
Proof.
  intros Hlogin.
  apply login_Ret in Hlogin
    as (u & id & major & Hfind & Hid & Hsub & Hsign & _).
  exists u, id. do 2 (split; [done |]).
  intros w2 Hnow.
  unfold get_current_user_id, try_except at 1, bind at 1.
  rewrite (decode_token_minted _ _ _ _ _ _ Hsign).
  assert ((minted_exp settings "access" w <? timegm (current_time w2)) = false)
    as -> by (apply Z.ltb_ge; lia).
  unfold dict_get. rewrite minted_lookup_type, minted_lookup_sub. simpl.
  apply String.eqb_neq in Hsub. by rewrite Hsub.
Qed.



End Coverage.

(** ** The CORS origins of the settings *)

Section ConfigProperties.
Context `{!PyText}.

Lemma stripped_nonempty_no_empty {A} (f : A → string) (items : list A) :
  EmptyString ∉ stripped_nonempty f items.
Proof.
  unfold stripped_nonempty. intros Hin.
  by apply list_elem_of_filter in Hin as [Hne _].
Qed.

(** Whatever the validator is given, no origin it returns is empty. *)
Theorem parse_cors_origins_no_empty (v : cors_value) :
  EmptyString ∉ parse_cors_origins v.
Proof.
  destruct v as [s | items |]; simpl.
  - destruct (_ && _); [destruct (json_loads_list _) as [[parsed |] |] |];
      apply stripped_nonempty_no_empty.
  - apply stripped_nonempty_no_empty.
  - unfold BACKEND_CORS_ORIGINS_default.
    by repeat (apply not_elem_of_cons; split; [done |]); apply not_elem_of_nil.
Qed.

Lemma split_on_no_sep (sep : ascii) (o : string) :
  sep ∉ list_ascii_of_string o → split_on sep o = [o].
Proof.
  induction o as [| c o IH]; [done |]. simpl.
  intros [Hc Ho]%not_elem_of_cons.
  rewrite (proj2 (Ascii.eqb_neq c sep)) by done. by rewrite IH.
Qed.

Lemma split_on_app_sep (sep : ascii) (o rest : string) :
  sep ∉ list_ascii_of_string o →
  split_on sep (o +:+ String sep rest) = o :: split_on sep rest.
Proof.
  induction o as [| c o IH].
  - intros _. change ("" +:+ String sep rest) with (String sep rest).
    simpl. by rewrite Ascii.eqb_refl.
  - simpl list_ascii_of_string. intros [Hc Ho]%not_elem_of_cons.
    change (String c o +:+ String sep rest)
      with (String c (o +:+ String sep rest)).
    simpl. rewrite (proj2 (Ascii.eqb_neq c sep)) by done. by rewrite IH.
Qed.

Lemma split_on_concat (sep : ascii) (l : list string) :
  l ≠ [] →
  Forall (λ o, sep ∉ list_ascii_of_string o) l →
  split_on sep (String.concat (String sep "") l) = l.
Proof.
  induction l as [| o l IH]; [done |]. intros _ Hl.
  apply List.Forall_cons_iff in Hl as [Ho Hl].
  destruct l as [| o' l].
  - simpl. by apply split_on_no_sep.
  - change (String.concat (String sep "") (o :: o' :: l))
      with (o +:+ String sep (String.concat (String sep "") (o' :: l))).
    rewrite split_on_app_sep by done. by rewrite IH.
Qed.

Lemma stripped_nonempty_fixed (l : list string) :
  Forall (λ o, o ≠ EmptyString ∧ py_strip o = o) l →
  stripped_nonempty id l = l.
Proof.
  unfold stripped_nonempty. induction 1 as [| o l [Hne Ho] _ IH]; [done |].
  rewrite fmap_cons, filter_cons_True.
  - rewrite IH. f_equal. exact Ho.
  - unfold id. by rewrite Ho.
Qed.

(** The comma-separated form round-trips: origins that are non-empty,
    hold no comma and no outer white space, joined with commas, are read
    back as they were. *)
Theorem parse_cors_origins_csv (l : list string) :
  Forall (λ o, o ≠ EmptyString ∧ (","%char ∉ list_ascii_of_string o) ∧
               py_strip o = o) l →
  py_strip (String.concat "," l) = String.concat "," l →
  (String.prefix "[" (String.concat "," l) &&
     str_endswith "]" (String.concat "," l)) = false →
  parse_cors_origins (CorsStr (String.concat "," l)) = l.
Proof.
  intros Hl Hstrip Hbracket. unfold parse_cors_origins.
  rewrite Hstrip, Hbracket.
  destruct l as [| o l].
  - simpl in *. unfold stripped_nonempty. simpl. rewrite Hstrip.
    by rewrite filter_cons_False by (by intros ?).
  - rewrite split_on_concat.
    + apply stripped_nonempty_fixed.
      eapply List.Forall_impl; [| exact Hl]. by intros ? (? & _ & ?).
    + done.
    + eapply List.Forall_impl; [| exact Hl]. by intros ? (_ & ? & _).
Qed.

End ConfigProperties.

(** * The properties on the reference instantiation *)

Import Reference.

(** ** Tokens *)


Lemma encode_precondition_failure_witness :
  (∃ m, create_token default_settings (VStr "") "access" (world_at t0) =
          (Raise (ValueError m), world_at t0)) ∧
  (∃ m, create_token default_settings (VStr alice_id) "refresh" (world_at t0) =
          (Raise (ValueError m), world_at t0)).
Proof.
  split; apply encode_precondition_failure; [by left | by right].
Defined.

Lemma expiry_enforced_after_exp_witness :
  decode_token default_settings alice_access (later 3601) =
    (Raise (ValueError (StrOfJose SignatureExpired)), advance (later 3601)) ∧
  decode_token default_settings alice_major (later (7 * 3600 + 1)) =
    (Raise (ValueError (StrOfJose SignatureExpired)),
     advance (later (7 * 3600 + 1))).
Proof.
  split.
  - apply (expiry_enforced_after_exp default_settings alice_id "access"
             alice_access (world_at t0) (advance (advance (world_at t0)))).
    + vm_compute. reflexivity.
    + vm_compute. reflexivity.
  - apply (expiry_enforced_after_exp default_settings alice_id "major"
             alice_major (world_at t0) (advance (advance (world_at t0)))).
    + vm_compute. reflexivity.
    + vm_compute. reflexivity.
Defined.

(** Against C3 as stated: the access token minted at [t0] has [exp]
    1700003600; at the instant 1700003600.999999, which is after [exp], it
    still decodes. *)
Lemma token_accepted_during_exp_second :
  create_token default_settings (VStr alice_id) "access" (world_at t0) =
    (Ret alice_access, advance (advance (world_at t0))) ∧
  minted_exp default_settings "access" (world_at t0) = 1700003600 ∧
  current_time (world_at (t0_late + 3600 * 1000000)) = 1700003600999999 ∧
  minted_exp default_settings "access" (world_at t0) ≤
    timegm (current_time (world_at (t0_late + 3600 * 1000000))) ∧
  decode_token default_settings alice_access
    (world_at (t0_late + 3600 * 1000000)) =
    (Ret (minted_payload default_settings (VStr alice_id) "access" (world_at t0)),
     advance (world_at (t0_late + 3600 * 1000000))).
Proof. repeat split; vm_compute; congruence. Qed.

Lemma expiry_arithmetic_witness :
  ∃ claims : dict,
    jws_verify_claims alice_access "change-me" ["HS256"]%string = Some claims ∧
    claims !! "exp" = Some (VInt 1700003600) ∧
    claims !! "iat" = Some (VInt 1700000000) ∧
    1700003600 = 1700000000 + ttl_seconds default_settings "access".
Proof.
  destruct (expiry_arithmetic default_settings (VStr alice_id) "access"
              alice_access (world_at t0) (advance (advance (world_at t0))))
    as (claims & Hverify & Hexp & Hiat & Harith).
  { vm_compute. reflexivity. }
  destruct Harith as (_ & _ & _ & Hsame).
  { vm_compute. discriminate. }
  { vm_compute. split; discriminate. }
  { vm_compute. reflexivity. }
  { vm_compute. reflexivity. }
  exists claims. split; [exact Hverify |]. split; [exact Hexp |].
  split; [exact Hiat |]. apply Hsame. vm_compute. reflexivity.
Defined.

(** Against C7 as stated: minted when the clock reads 1700000000.999999 and
    then 1700000001.000000, the access token has [exp] 1700003600 and [iat]
    1700000001, one second short of [iat] plus the 3600 s TTL. *)
Lemma exp_differs_from_iat_plus_ttl :
  ∃ (tok : string) (claims : dict),
    create_token default_settings (VStr alice_id) "access" (world_at t0_late) =
      (Ret tok, advance (advance (world_at t0_late))) ∧
    jws_verify_claims tok "change-me" ["HS256"]%string = Some claims ∧
    claims !! "exp" = Some (VInt 1700003600) ∧
    claims !! "iat" = Some (VInt 1700000001) ∧
    ttl_seconds default_settings "access" = 3600 ∧
    1700003600 ≠ 1700000001 + 3600.
Proof.
  exists (minted (VStr alice_id) "access" (world_at t0_late)),
    (minted_payload default_settings (VStr alice_id) "access" (world_at t0_late)).
  repeat split; vm_compute; congruence.
Qed.

(** ** Passwords and login *)

Lemma verify_password_digest_cases_witness :
  verify_password "hunter2" (VStr "") = Ret false ∧
  verify_password "hunter2" (VStr "5f4dcc3b5aa765d61d8327deb882cf99") =
    Raise UnknownHashError.
Proof.
  destruct (verify_password_digest_cases "hunter2") as [Hempty Hunknown].
  split; [exact Hempty |].
  apply Hunknown; [done | reflexivity].
Defined.

(** Against C4 as stated: on a digest that is not a hash of any scheme,
    [verify_password] raises instead of returning [False]. *)
Lemma unidentified_digest_raises :
  pwd_identify "not-a-hash" = None ∧
  verify_password "hunter2" (VStr "not-a-hash") = Raise UnknownHashError ∧
  verify_password "hunter2" (VStr "not-a-hash") ≠ Ret false.
Proof. repeat split; vm_compute; congruence. Qed.

Lemma login_failure_uniform_witness :
  login default_settings {| email := "alice@example.com"; senha := "wrong" |}
    db_empty (world_at t0) =
    (Raise (HTTPException 401 "Credenciais inválidas" []), world_at t0) ∧
  login default_settings {| email := "alice@example.com"; senha := "wrong" |}
    db_alice (world_at t0) =
  login default_settings {| email := "alice@example.com"; senha := "wrong" |}
    db_empty (world_at t0) ∧
  respond (login default_settings
             {| email := "alice@example.com"; senha := "wrong" |}
             db_alice (world_at t0)) =
  respond (login default_settings
             {| email := "alice@example.com"; senha := "wrong" |}
             db_empty (world_at t0)).
Proof.
  destruct (login_failure_uniform default_settings
              {| email := "alice@example.com"; senha := "wrong" |}
              db_empty db_alice alice (world_at t0))
    as (Hunknown & Hwrong & _).
  - reflexivity.
  - reflexivity.
  - split; [exact Hunknown |]. apply Hwrong. vm_compute. reflexivity.
Defined.

(** Against C6 as stated: the same credentials sent for an email that no
    record has and for an email whose record holds an MD5 digest.  The
    password does not verify in either case, but the first request is
    answered 401 and the second 500. *)
Lemma login_failures_told_apart :
  find_one_by_email db_empty "alice@example.com" = None ∧
  verify_password "wrong" (VStr "5f4dcc3b5aa765d61d8327deb882cf99") =
    Raise UnknownHashError ∧
  respond (login default_settings
             {| email := "alice@example.com"; senha := "wrong" |}
             db_empty (world_at t0)) =
    {| status := 401; body := DetailBody "Credenciais inválidas";
       headers := []; set_cookies := [] |} ∧
  respond (login default_settings
             {| email := "alice@example.com"; senha := "wrong" |}
             (LegacyRecords.db_with_hash
                (VStr "5f4dcc3b5aa765d61d8327deb882cf99"))
             (world_at t0)) =
    {| status := 500; body := InternalServerError;
       headers := []; set_cookies := [] |}.
Proof. repeat split; vm_compute; reflexivity. Qed.

(** ** Kinds, refresh and [me] *)

Lemma alice_access_decodes :
  decode_token default_settings alice_access (later 60) =
    (Ret (minted_payload default_settings (VStr alice_id) "access" (world_at t0)),
     advance (later 60)).
Proof. vm_compute. reflexivity. Qed.

Lemma alice_major_decodes :
  decode_token default_settings alice_major (later 60) =
    (Ret (minted_payload default_settings (VStr alice_id) "major" (world_at t0)),
     advance (later 60)).
Proof. vm_compute. reflexivity. Qed.

Lemma cross_kind_rejection_witness :
  decodes_as default_settings alice_access "access" (later 60) ∧
  decodes_as default_settings alice_major "major" (later 60) ∧
  (∃ detail w',
     refresh default_settings (cookie_of alice_access) db_alice (later 60) =
       (Raise (HTTPException 401 detail []), w')) ∧
  (∃ w',
     get_current_user_id default_settings alice_major (later 60) =
       (Raise (HTTPException 401 "Token inválido ou expirado"
                 [("WWW-Authenticate", "Bearer")]%string), w')).
Proof.
  destruct (cross_kind_rejection default_settings) as [Hrefresh Hguard].
  split; [| split; [| split]].
  - eexists _, _. split; [apply alice_access_decodes | reflexivity].
  - eexists _, _. split; [apply alice_major_decodes | reflexivity].
  - apply (Hrefresh alice_access); [reflexivity |].
    intros claims w' Hdec. rewrite alice_access_decodes in Hdec.
    by injection Hdec as <- <-.
  - apply Hguard.
    intros claims w' Hdec. rewrite alice_major_decodes in Hdec.
    by injection Hdec as <- <-.
Defined.

Lemma me_ignores_token_kind_witness :
  me default_settings (Some ("Bearer " +:+ alice_major)) db_alice (later 60) =
    (Ret (<["id" := VStr alice_id]>
          (<["display_name" := VStr "Alice"]>
          (<["departamento" := VNone]>
          (<["avatar_url" := VNone]>
          (<["descricao_html" := VStr ""]> ∅))))),
     advance (later 60)) ∧
  ∃ w', get_current_user_id default_settings alice_major (later 60) =
          (Raise (HTTPException 401 "Token inválido ou expirado"
                    [("WWW-Authenticate", "Bearer")]%string), w').
Proof.
  destruct (me_ignores_token_kind default_settings ("Bearer " +:+ alice_major)
              alice_major alice_id db_alice (later 60)
              (minted_payload default_settings (VStr alice_id) "major" (world_at t0))
              (advance (later 60)) (Oid alice_id) alice (VOid (Oid alice_id)))
    as [Hme Hguard].
  - done.
  - vm_compute. reflexivity.
  - vm_compute. reflexivity.
  - vm_compute. reflexivity.
  - done.
  - vm_compute. reflexivity.
  - vm_compute. reflexivity.
  - vm_compute. reflexivity.
  - split; [exact Hme |]. apply Hguard. vm_compute. reflexivity.
Defined.

Lemma refresh_frame_condition_witness :
  ∃ out w',
    refresh default_settings (cookie_of alice_major) db_alice (later 60) = (Ret out, w') ∧
    response_cookies w' = [] ∧
    (∃ claims w1,
       decode_token default_settings alice_major (later 60) = (Ret claims, w1) ∧
       create_token default_settings (dict_get claims "sub") "access" w1 =
         (Ret (access_token out), w')) ∧
    set_cookies (serve (refresh default_settings (cookie_of alice_major) db_alice) (later 60)).1 = [] ∧
    (client_refreshes default_settings [db_alice; db_empty; db_alice]
       (cookies (cookie_of alice_major), later 60)).1 !! "major_token" = Some alice_major.
Proof.
  destruct (refresh_frame_condition default_settings) as (Hok & Hserve & Hjar).
  assert (∃ out w',
            refresh default_settings (cookie_of alice_major) db_alice (later 60) = (Ret out, w'))
    as (out & w' & Hrun).
  { vm_compute. eexists _, _. reflexivity. }
  exists out, w'. split; [exact Hrun |].
  destruct (Hok _ _ _ _ _ Hrun)
    as (Hcookies & tok & claims & w1 & Htok & Hdec & _ & Hmint & _).
  injection Htok as <-.
  split; [by rewrite Hcookies |].
  split; [exists claims, w1; split; [exact Hdec | exact Hmint] |].
  split; [apply Hserve |]. by rewrite Hjar.
Defined.

Lemma refresh_subject_resolution_witness :
  refresh default_settings (cookie_of nosub_major) db_alice (later 60) =
    (Raise (HTTPException 401 "Major token inválido ou expirado" []),
     advance (later 60)) ∧
  refresh default_settings (cookie_of ghost_major) db_alice (later 60) =
    (Raise (HTTPException 401 "ID inválido no token" []), advance (later 60)) ∧
  refresh default_settings (cookie_of alice_major) db_empty (later 60) =
    (Raise (HTTPException 401 "Usuário não encontrado" []), advance (later 60)).
Proof.
  split; [| split].
  - eapply (refresh_subject_resolution default_settings nosub_major).
    + reflexivity.
    + done.
    + vm_compute. reflexivity.
    + vm_compute. reflexivity.
    + vm_compute. reflexivity.
  - eapply (refresh_subject_resolution default_settings ghost_major).
    + reflexivity.
    + done.
    + vm_compute. reflexivity.
    + vm_compute. reflexivity.
    + vm_compute. reflexivity.
    + vm_compute. reflexivity.
  - eapply (refresh_subject_resolution default_settings alice_major).
    + reflexivity.
    + done.
    + vm_compute. reflexivity.
    + vm_compute. reflexivity.
    + vm_compute. reflexivity.
    + vm_compute. reflexivity.
    + reflexivity.
Defined.

(** Against C9 as stated: two refreshes with valid major tokens whose
    subject names no user record; both are answered 401, but the body of
    one says the id is malformed and the body of the other says the user
    was not found. *)
Lemma refresh_failures_name_their_cause :
  decodes_as default_settings alice_major "major" (later 60) ∧
  decodes_as default_settings ghost_major "major" (later 60) ∧
  (refresh default_settings (cookie_of alice_major) db_empty (later 60)).1 =
    Raise (HTTPException 401 "Usuário não encontrado" []) ∧
  (refresh default_settings (cookie_of ghost_major) db_empty (later 60)).1 =
    Raise (HTTPException 401 "ID inválido no token" []) ∧
  respond (refresh default_settings (cookie_of alice_major) db_empty (later 60)) ≠
  respond (refresh default_settings (cookie_of ghost_major) db_empty (later 60)).
Proof.
  split; [| split; [| repeat split; vm_compute; congruence]].
  - exists (minted_payload default_settings (VStr alice_id) "major" (world_at t0)),
      (advance (later 60)).
    split; vm_compute; reflexivity.
  - exists (minted_payload default_settings (VStr "ghost") "major" (world_at t0)),
      (advance (later 60)).
    split; vm_compute; reflexivity.
Qed.

(** ** Guards and login *)

Lemma guard_accepts_access_witness :
  get_current_user_id default_settings alice_access (later 60) =
    (Ret alice_id, advance (later 60)).
Proof.
  apply (guard_accepts_access default_settings alice_access alice_id (later 60)
           (minted_payload default_settings (VStr alice_id) "access" (world_at t0))).
  - vm_compute. reflexivity.
  - vm_compute. reflexivity.
  - vm_compute. reflexivity.
  - done.
Defined.

Lemma alice_access_not_major :
  ¬ decodes_as default_settings alice_access "major" (later 60).
Proof.
  intros (claims & w' & Hdec & Hty).
  assert (decode_token default_settings alice_access (later 60) =
            (Ret (minted_payload default_settings (VStr alice_id) "access"
                    (world_at t0)), advance (later 60))) as Hrun
    by (vm_compute; reflexivity).
  rewrite Hrun in Hdec. injection Hdec as <- <-.
  vm_compute in Hty. discriminate Hty.
Qed.

Lemma alice_major_not_access :
  ¬ decodes_as default_settings alice_major "access" (later 60).
Proof.
  intros (claims & w' & Hdec & Hty).
  assert (decode_token default_settings alice_major (later 60) =
            (Ret (minted_payload default_settings (VStr alice_id) "major"
                    (world_at t0)), advance (later 60))) as Hrun
    by (vm_compute; reflexivity).
  rewrite Hrun in Hdec. injection Hdec as <- <-.
  vm_compute in Hty. discriminate Hty.
Qed.

Lemma refresh_requires_major_witness :
  ∃ detail w',
    refresh default_settings (cookie_of alice_access) db_alice (later 60) =
      (Raise (HTTPException 401 detail []), w').
Proof.
  apply (refresh_requires_major default_settings alice_access);
    [reflexivity | exact alice_access_not_major].
Defined.

Lemma guard_requires_access_witness :
  ∃ w',
    get_current_user_id default_settings alice_major (later 60) =
      (Raise (HTTPException 401 "Token inválido ou expirado"
                [("WWW-Authenticate", "Bearer")]%string), w').
Proof.
  apply (guard_requires_access default_settings alice_major).
  exact alice_major_not_access.
Defined.


(** * The further properties on the reference instantiation *)

Import TextReference LegacyRecords.

Lemma decode_token_wraps_jwt_errors_witness :
  decode_token default_settings alice_access (later 3601) =
    (Raise (ValueError (StrOfJose SignatureExpired)), advance (later 3601)) ∧
  ∃ c, StrOfJose SignatureExpired = StrOfJose c ∧
       jwt_decode alice_access "change-me" ["HS256"]%string (later 3601) =
         (Raise (JWTError c), advance (later 3601)).
Proof.
  assert (decode_token default_settings alice_access (later 3601) =
            (Raise (ValueError (StrOfJose SignatureExpired)),
             advance (later 3601))) as Hrun
    by (vm_compute; reflexivity).
  split; [exact Hrun |].
  destruct (decode_token_wraps_jwt_errors default_settings _ _ _ _ Hrun)
    as [_ Hvalue].
  exact (Hvalue _ eq_refl).
Defined.

Lemma guard_returns_subject_witness :
  get_current_user_id default_settings alice_access (later 60) =
    (Ret alice_id, advance (later 60)) ∧
  alice_id ≠ ""%string ∧
  ∃ claims : dict,
    decode_token default_settings alice_access (later 60) =
      (Ret claims, advance (later 60)) ∧
    claims !! "type" = Some (VStr "access") ∧
    claims !! "sub" = Some (VStr alice_id).
Proof.
  assert (get_current_user_id default_settings alice_access (later 60) =
            (Ret alice_id, advance (later 60))) as Hrun
    by (vm_compute; reflexivity).
  split; [exact Hrun |].
  exact (guard_returns_subject default_settings _ _ _ _ Hrun).
Defined.

Lemma create_access_token_requires_sub_witness :
  create_access_token default_settings None None (world_at t0) =
    (Raise (ValueError (Text
       "create_access_token requer 'sub' em data (ex.: {'sub': user_id})")),
     world_at t0) ∧
  create_access_token default_settings (Some {[ "id" := VStr alice_id ]}) None
    (world_at t0) =
    (Raise (ValueError (Text
       "create_access_token requer 'sub' em data (ex.: {'sub': user_id})")),
     world_at t0) ∧
  create_access_token default_settings (Some {[ "sub" := VStr "" ]}) None
    (world_at t0) =
    (Raise (ValueError (Text
       "create_access_token requer 'sub' em data (ex.: {'sub': user_id})")),
     world_at t0).
Proof.
  split; [| split]; apply create_access_token_requires_sub.
  - by left.
  - right. eexists. split; [reflexivity |]. by left.
  - right. eexists. split; [reflexivity |]. right.
    exists (VStr ""). split; [vm_compute; reflexivity | reflexivity].
Defined.



Lemma me_bearer_prefix_optional_witness :
  me default_settings (Some ("Bearer " +:+ alice_access)) db_alice (later 60) =
  me default_settings (Some alice_access) db_alice (later 60).
Proof.
  apply (me_bearer_prefix_optional default_settings alice_access).
  by vm_compute.
Defined.

Lemma me_error_contract_witness :
  me default_settings (Some "Bearer not-a-token") db_alice (later 60) =
    (Raise (HTTPException 401 "Token inválido ou expirado" []), later 60) ∧
  (HTTPException 401 "Token inválido ou expirado" [] =
     HTTPException 401 "Token ausente" [] ∨
   HTTPException 401 "Token inválido ou expirado" [] =
     HTTPException 401 "Token inválido ou expirado" [] ∨
   HTTPException 401 "Token inválido ou expirado" [] =
     HTTPException 401 "ID inválido no token" [] ∨
   HTTPException 401 "Token inválido ou expirado" [] =
     HTTPException 404 "Usuário não encontrado" [] ∨
   HTTPException 401 "Token inválido ou expirado" [] = KeyError "_id").
Proof.
  assert (me default_settings (Some "Bearer not-a-token") db_alice (later 60) =
            (Raise (HTTPException 401 "Token inválido ou expirado" []),
             later 60)) as Hrun
    by (vm_compute; reflexivity).
  split; [exact Hrun |].
  exact (me_error_contract default_settings _ _ _ _ _ Hrun).
Defined.

Lemma me_exposes_profile_only_witness :
  ∃ (d : dict) (w' : World),
    me default_settings (Some ("Bearer " +:+ alice_access)) db_alice (later 60) =
      (Ret d, w') ∧
    d !! "senha_hash" = None ∧ d !! "email" = None.
Proof.
  assert (∃ d w',
            me default_settings (Some ("Bearer " +:+ alice_access)) db_alice
              (later 60) = (Ret d, w')) as (d & w' & Hrun).
  { vm_compute. eexists _, _. reflexivity. }
  exists d, w'. split; [exact Hrun |].
  split; apply (me_exposes_profile_only default_settings _ _ _ _ _ _ Hrun);
    apply (bool_decide_unpack _); vm_compute; exact I.
Defined.


Lemma refresh_token_passes_guard_witness :
  ∃ (out : TokenOut) (w' : World),
    refresh default_settings (cookie_of alice_major) db_alice (later 60) =
      (Ret out, w') ∧
    get_current_user_id default_settings (access_token out) (later 3000) =
      (Ret alice_id, advance (later 3000)).
Proof.
  assert (∃ out w',
            refresh default_settings (cookie_of alice_major) db_alice (later 60)
              = (Ret out, w')) as (out & w' & Hrun).
  { vm_compute. eexists _, _. reflexivity. }
  exists out, w'. split; [exact Hrun |].
  destruct (refresh_token_passes_guard default_settings _ _ _ _ _ Hrun)
    as (major & s & claims & w1 & Hcookie & Hdec & Hsub & Hguard).
  assert (major = alice_major) as -> by (by injection Hcookie).
  assert (decode_token default_settings alice_major (later 60) =
            (Ret (minted_payload default_settings (VStr alice_id) "major"
                    (world_at t0)), advance (later 60))) as Hdec'
    by (vm_compute; reflexivity).
  rewrite Hdec' in Hdec. injection Hdec as <- <-.
  vm_compute in Hsub. injection Hsub as <-.
  apply Hguard. by vm_compute.
Defined.

Lemma login_without_password_hash_witness :
  login default_settings
    {| email := "alice@example.com"; senha := "correct horse" |}
    (db_with_hash VNone) (world_at t0) =
    (Raise (HTTPException 401 "Credenciais inválidas" []), world_at t0) ∧
  login default_settings
    {| email := "alice@example.com"; senha := "" |}
    (db_with_hash (VStr "")) (world_at t0) =
    (Raise (HTTPException 401 "Credenciais inválidas" []), world_at t0).
Proof.
  split.
  - apply (login_without_password_hash default_settings _ _
             (<["senha_hash" := VNone]> alice)); [reflexivity |].
    right. exists VNone. split; [vm_compute; reflexivity | reflexivity].
  - apply (login_without_password_hash default_settings _ _
             (<["senha_hash" := VStr ""]> alice)); [reflexivity |].
    right. exists (VStr ""). split; [vm_compute; reflexivity | reflexivity].
Defined.

(** A record that still holds an MD5 digest. *)
Lemma login_unidentified_hash_witness :
  login default_settings
    {| email := "alice@example.com"; senha := "password" |}
    (db_with_hash (VStr "5f4dcc3b5aa765d61d8327deb882cf99")) (world_at t0) =
    (Raise UnknownHashError, world_at t0) ∧
  status (respond (login default_settings
    {| email := "alice@example.com"; senha := "password" |}
    (db_with_hash (VStr "5f4dcc3b5aa765d61d8327deb882cf99")) (world_at t0)))
    = 500.
Proof.
  apply (login_unidentified_hash default_settings _ _
           (<["senha_hash" := VStr "5f4dcc3b5aa765d61d8327deb882cf99"]> alice)
           "5f4dcc3b5aa765d61d8327deb882cf99").
  - reflexivity.
  - vm_compute. reflexivity.
  - done.
  - reflexivity.
Defined.

Lemma login_token_passes_guard_witness :
  ∃ (out : TokenOut) (w' : World),
    login default_settings
      {| email := "alice@example.com"; senha := "correct horse" |}
      db_alice (world_at t0) = (Ret out, w') ∧
    get_current_user_id default_settings (access_token out) (later 3600) =
      (Ret alice_id, advance (later 3600)).
Proof.
  eassert (login default_settings
             {| email := "alice@example.com"; senha := "correct horse" |}
             db_alice (world_at t0) = (Ret _, _)) as Hrun
    by (vm_compute; reflexivity).
  eexists _, _. split; [exact Hrun |].
  destruct (login_token_passes_guard default_settings _ _ _ _ _ Hrun)
    as (u & id & Hfind & Hid & Hguard).
  injection Hfind as <-.
  vm_compute in Hid. injection Hid as <-.
  apply Hguard. by vm_compute.
Defined.


Lemma parse_cors_origins_csv_witness :
  parse_cors_origins
    (CorsStr "http://localhost:5173,https://intranet.example.com") =
    ["http://localhost:5173"; "https://intranet.example.com"]%string.
Proof.
  apply (parse_cors_origins_csv
           ["http://localhost:5173"; "https://intranet.example.com"]%string).
  - repeat apply List.Forall_cons; [| | apply List.Forall_nil];
      (split; [done |]); (split; [| vm_compute; reflexivity]);
      apply (bool_decide_unpack _); vm_compute; exact I.
  - vm_compute. reflexivity.
  - vm_compute. reflexivity.
Defined.
